(** * File-Manager: the upload / list / download / delete handlers of server.js

    A shallow embedding of [server.js] (an Express application that proxies
    files to one Azure Blob Storage container) together with the properties
    of its file registry: type and size validation, storage-key
    construction, original-name recovery, download, deletion and the shape
    of the error responses.

    Modelling conventions.
    - A JavaScript string is a [string]: a sequence of code units below
      0x100 (the Latin-1 range, which is also what the multipart parser
      decodes file names to).  On such strings [toLowerCase] works one
      unit at a time: it lowers A-Z and the letters U+00C0-U+00DE other
      than the multiplication sign.  Strings with larger code units are
      outside the model.
    - Non-negative JavaScript integers (sizes, epoch milliseconds, HTTP
      status codes) are [N].  A buffer is a [list byte].
    - The blob container is a [gmap string Blob].  Every call into the
      storage SDK may throw; which calls do is fixed by a fault schedule
      carried in the [World].
    - The [res] object of a handler is explicit state: status code, headers
      and body, mutated by [res_status], [setHeader], [res_json] and
      [pipe].
    - [Date.now()] is an argument of the upload handler.
    - [path.extname], the multer middleware and the storage SDK are
      libraries the server calls; they are modelled after their documented
      behaviour, next to the code of the server that uses them. *)

From Stdlib Require Import ZArith NArith Ascii String List Lia.
From Stdlib.Strings Require Import Byte.
From stdpp Require Import base option list strings pretty gmap fin_maps.


Local Open Scope Z_scope.

(** ** JavaScript strings *)

Module Js.

(** [s.length], as a mathematical integer. *)
Definition strlen (s : string) : Z := Z.of_nat (String.length s).

Definition chars (s : string) : list ascii := list_ascii_of_string s.
Definition of_chars (l : list ascii) : string := string_of_list_ascii l.

(** [s.split(sep)] for a one-character separator. *)
Fixpoint split (sep : ascii) (s : string) : list string :=
  match s with
  | EmptyString => [EmptyString]
  | String c s' =>
      if Ascii.eqb c sep then EmptyString :: split sep s'
      else match split sep s' with
           | [] => [String c EmptyString]
           | seg :: segs => String c seg :: segs
           end
  end.

(** [a.join(sep)]. *)
Fixpoint join (sep : string) (a : list string) : string :=
  match a with
  | [] => EmptyString
  | [x] => x
  | x :: rest => x +:+ sep +:+ join sep rest
  end.

(** [a.slice(1)]. *)
Definition slice1 {A : Type} (a : list A) : list A := drop 1 a.

(** [s.slice(from, to)] for [0 <= from]; both bounds are clamped to the
    length of [s], as the method does. *)
Definition slice (s : string) (from to : Z) : string :=
  of_chars (take (Z.to_nat (to - from)) (drop (Z.to_nat from) (chars s))).

Definition lower_char (c : ascii) : ascii :=
  let n := N_of_ascii c in
  if (((65 <=? n) && (n <=? 90))
      || ((192 <=? n) && (n <=? 214))
      || ((216 <=? n) && (n <=? 222)))%N
  then ascii_of_N (n + 32) else c.

(** [s.toLowerCase()]. *)
Fixpoint toLowerCase (s : string) : string :=
  match s with
  | EmptyString => EmptyString
  | String c s' => String (lower_char c) (toLowerCase s')
  end.

(** [a.includes(x)] on an array of strings. *)
Fixpoint includes (a : list string) (x : string) : bool :=
  match a with
  | [] => false
  | y :: rest => String.eqb y x || includes rest x
  end.

(** [s.includes(c)] for a one-character needle. *)
Fixpoint contains (c : ascii) (s : string) : bool :=
  match s with
  | EmptyString => false
  | String a s' => Ascii.eqb a c || contains c s'
  end.

(** [x || dflt] on an optional string: [undefined] and the empty string
    are both falsy. *)
Definition or_else (x : option string) (dflt : string) : string :=
  match x with
  | Some (String c s) => String c s
  | _ => dflt
  end.

End Js.

(** ** [path.extname] (POSIX flavour of Node's [path] module)

    The function scans the path from its last character to its first,
    keeping five variables; the record below holds them and [scan] is the
    body of the loop. *)

Module Path.

Record Scan := mkScan {
  startDot : Z;
  startPart : Z;
  endIdx : Z;
  matchedSlash : bool;
  preDotState : Z
}.

Definition scan0 : Scan :=
  {| startDot := -1; startPart := 0; endIdx := -1;
     matchedSlash := true; preDotState := 0 |}.

Definition mark_end (i : Z) (st : Scan) : Scan :=
  if endIdx st =? -1
  then mkScan (startDot st) (startPart st) (i + 1) false (preDotState st)
  else st.

Definition see_char (code : ascii) (i : Z) (st : Scan) : Scan :=
  if Ascii.eqb code "."
  then if startDot st =? -1
       then mkScan i (startPart st) (endIdx st) (matchedSlash st) (preDotState st)
       else if negb (preDotState st =? 1)
            then mkScan (startDot st) (startPart st) (endIdx st) (matchedSlash st) 1
            else st
  else if negb (startDot st =? -1)
       then mkScan (startDot st) (startPart st) (endIdx st) (matchedSlash st) (-1)
       else st.

(** [rpath] holds the characters still to visit, last character of the
    path first; [i] is the index of the head of [rpath]. *)
Fixpoint scan (rpath : list ascii) (i : Z) (st : Scan) : Scan :=
  match rpath with
  | [] => st
  | code :: rest =>
      if Ascii.eqb code "/"
      then if negb (matchedSlash st)
           then mkScan (startDot st) (i + 1) (endIdx st) (matchedSlash st) (preDotState st)
           else scan rest (i - 1) st
      else scan rest (i - 1) (see_char code i (mark_end i st))
  end.

(** A character that is neither '.' nor '/'. *)
Definition plain (c : ascii) : Prop := c <> "."%char /\ c <> "/"%char.

Definition extname (path : string) : string :=
  let st := scan (rev (Js.chars path)) (Js.strlen path - 1) scan0 in
  if (startDot st =? -1)
     || (endIdx st =? -1)
     || (preDotState st =? 0)
     || ((preDotState st =? 1)
         && (startDot st =? endIdx st - 1)
         && (startDot st =? startPart st + 1))
  then EmptyString
  else Js.slice path (startDot st) (endIdx st).

End Path.

(** ** Values handed to [res.json] and errors passed to [next] or thrown *)

#[local] Set Warnings "-register-all".
Inductive JsVal :=
| VUndefined
| VBool (b : bool)
| VNum (n : N)
| VStr (s : string)
| VDate (ms : N)
| VArr (items : list JsVal)
| VObj (props : list (string * JsVal)).

(** [new Error(message)] and [new multer.MulterError(code)]. *)
Inductive JsError :=
| Error (message : string)
| MulterError (code : string) (message : string).

Definition message (e : JsError) : string :=
  match e with
  | Error m => m
  | MulterError _ m => m
  end.

(** [o.key] on an object literal; [None] when the object has no such
    property. *)
Fixpoint get_prop (key : string) (props : list (string * JsVal)) : option JsVal :=
  match props with
  | [] => None
  | (k, v) :: rest => if String.eqb k key then Some v else get_prop key rest
  end.

Definition field (key : string) (v : JsVal) : option JsVal :=
  match v with
  | VObj props => get_prop key props
  | _ => None
  end.

(** ** The multer instance [upload]

    [multer({storage: memoryStorage(), limits: {fileSize}, fileFilter})] and
    its middleware [upload.single('file')].  A request carries at most one
    file part. *)

Module Multer.

(** A file part of a multipart body, as the parser hands it over.  The
    parser keeps only the base name of the file, so [part_filename] carries
    no path separator; [part_type] is the MIME type the part declares, or
    [text/plain] when it declares none, so it is never empty. *)
Record FilePart := {
  part_field : string;
  part_filename : string;
  part_type : string;
  part_data : list byte
}.

(** [req.file] as the memory storage engine fills it in. *)
Record File := {
  originalname : string;
  mimetype : string;
  buffer : list byte;
  size : N
}.

Definition allowedTypes : list string :=
  [".txt"; ".pdf"; ".png"; ".jpg"; ".jpeg"; ".gif"; ".doc"; ".docx"; ".xls"; ".xlsx"].

(** [limits.fileSize]. *)
Definition fileSize : N := 10 * 1024 * 1024.

(** [fileFilter(req, file, cb)]: the result is the pair of arguments the
    filter passes to [cb]. *)
Definition fileFilter (originalname : string) : option JsError * bool :=
  let fileExt := Js.toLowerCase (Path.extname originalname) in
  if Js.includes allowedTypes fileExt
  then (None, true)
  else (Some (Error ("File type " +:+ fileExt +:+ " is not allowed. Allowed types: "
                       +:+ Js.join ", " allowedTypes)), false).

(** [upload.single(name)]: [inl err] is [next(err)], [inr file] is [next()]
    with [req.file = file].  A part without a file name is skipped, a file
    under another field is refused, then the filter runs, and only then is
    the body read against the size limit.  The parser raises the limit as
    soon as the body has reached [fileSize] bytes, so a body of exactly
    [fileSize] bytes is refused like a longer one. *)
Definition single (name : string) (req : option FilePart) : JsError + option File :=
  match req with
  | None => inr None
  | Some part =>
      if String.eqb (part_filename part) EmptyString then inr None
      else if negb (String.eqb (part_field part) name)
      then inl (MulterError "LIMIT_UNEXPECTED_FILE" "Unexpected field")
      else match fileFilter (part_filename part) with
           | (Some err, _) => inl err
           | (None, false) => inr None
           | (None, true) =>
               if (fileSize <=? N.of_nat (length (part_data part)))%N
               then inl (MulterError "LIMIT_FILE_SIZE" "File too large")
               else inr (Some {| originalname := part_filename part;
                                 mimetype := part_type part;
                                 buffer := part_data part;
                                 size := N.of_nat (length (part_data part)) |})
           end
  end.

End Multer.

(** ** The blob container and the response under construction *)

Record Blob := {
  content : list byte;
  contentType : option string;
  lastModified : N
}.

Definition contentLength (b : Blob) : N := N.of_nat (length (content b)).

(** [faults] schedules the outcome of the SDK calls still to come: the head
    is consumed by the next call, [Some msg] makes it throw an error with
    that message, [None] (or an exhausted schedule) lets it through.
    [backendTime] is the clock the storage service stamps writes with. *)
Record World := {
  blobs : gmap string Blob;
  faults : list (option string);
  backendTime : N
}.

(** The world with its container replaced. *)
Definition with_blobs (m : gmap string Blob) (w : World) : World :=
  {| blobs := m; faults := faults w; backendTime := backendTime w |}.

Inductive Body :=
| JsonBody (v : JsVal)
| StreamBody (bytes : list byte).

Record Res := {
  statusCode : N;
  headers : gmap string string;
  body : option Body
}.

Definition res0 : Res := {| statusCode := 200; headers := ∅; body := None |}.

Record St := { world : World; res : Res }.

Inductive Outcome (A : Type) :=
| Returned (a : A)
| Thrown (e : JsError).
Arguments Returned {A} a.
Arguments Thrown {A} e.

(** An async function body: it reads and writes the world and the response
    and either returns or throws. *)
Definition Handler (A : Type) : Type := St -> Outcome A * St.

Definition ret {A : Type} (a : A) : Handler A := fun st => (Returned a, st).

Definition bind {A B : Type} (m : Handler A) (k : A -> Handler B) : Handler B :=
  fun st =>
    match m st with
    | (Returned a, st') => k a st'
    | (Thrown e, st') => (Thrown e, st')
    end.

(** [try { body } catch (error) { handler }]. *)
Definition try_catch {A : Type} (body : Handler A) (handler : JsError -> Handler A) : Handler A :=
  fun st =>
    match body st with
    | (Returned a, st') => (Returned a, st')
    | (Thrown e, st') => handler e st'
    end.

Declare Scope handler_scope.
Delimit Scope handler_scope with handler.
Notation "'let!' x ':=' m 'in' k" := (bind m (fun x => k))
  (at level 10, x name, m at level 100, k at level 200) : handler_scope.
Notation "m ';;' k" := (bind m (fun _ => k))
  (at level 100, k at level 200, right associativity) : handler_scope.
Local Open Scope handler_scope.

(** [for await (const x of xs) { ys.push(await f(x)) }]. *)
Fixpoint for_each {A B : Type} (xs : list A) (f : A -> Handler B) : Handler (list B) :=
  match xs with
  | [] => ret []
  | x :: rest => let! y := f x in let! ys := for_each rest f in ret (y :: ys)
  end.

(** *** Express response methods *)

Definition res_status (code : N) : Handler unit :=
  fun st => (Returned tt,
             {| world := world st;
                res := {| statusCode := code; headers := headers (res st); body := body (res st) |} |}).

(** The characters Node lets through in a header value: the tab, 0x20-0x7E
    and 0x80-0xFF. *)
Definition header_char_ok (c : ascii) : bool :=
  let n := N_of_ascii c in
  ((n =? 9) || ((32 <=? n) && (n <=? 126)) || (128 <=? n))%N.

Fixpoint header_safe (value : string) : bool :=
  match value with
  | EmptyString => true
  | String c rest => header_char_ok c && header_safe rest
  end.

(** The error [res.setHeader] throws for a value it refuses. *)
Definition invalidHeader (name : string) : JsError :=
  Error ("Invalid character in header content ["
           +:+ String "034"%char EmptyString +:+ name
           +:+ String "034"%char EmptyString +:+ "]").

(** [res.setHeader(name, value)] for one of the header names the server
    uses: the value is checked, and a refused value throws. *)
Definition setHeader (name value : string) : Handler unit :=
  fun st =>
    if header_safe value
    then (Returned tt,
          {| world := world st;
             res := {| statusCode := statusCode (res st);
                       headers := <[name := value]> (headers (res st));
                       body := body (res st) |} |})
    else (Thrown (invalidHeader name), st).

Definition res_json (v : JsVal) : Handler unit :=
  fun st => (Returned tt,
             {| world := world st;
                res := {| statusCode := statusCode (res st); headers := headers (res st);
                          body := Some (JsonBody v) |} |}).

(** [stream.pipe(res)] for a stream that delivers [bytes]. *)
Definition pipe (bytes : list byte) : Handler unit :=
  fun st => (Returned tt,
             {| world := world st;
                res := {| statusCode := statusCode (res st); headers := headers (res st);
                          body := Some (StreamBody bytes) |} |}).

(** ** The storage SDK

    [containerClient] and the blob clients made from it.  Each operation
    first consumes one entry of the fault schedule. *)

Module Sdk.

Definition next_fault (w : World) : option string * World :=
  match faults w with
  | [] => (None, w)
  | o :: rest => (o, {| blobs := blobs w; faults := rest; backendTime := backendTime w |})
  end.

(** One round trip: [op] maps the container and the service clock to an
    error or to a result and the new container. *)
Definition call {A : Type}
    (op : gmap string Blob -> N -> JsError + (A * gmap string Blob)) : Handler A :=
  fun st =>
    let (fault, w) := next_fault (world st) in
    match fault with
    | Some msg => (Thrown (Error msg), {| world := w; res := res st |})
    | None =>
        match op (blobs w) (backendTime w) with
        | inl e => (Thrown e, {| world := w; res := res st |})
        | inr (a, m) => (Returned a, {| world := with_blobs m w; res := res st |})
        end
    end.

Definition blobNotFound : JsError := Error "The specified blob does not exist.".

(** [blobClient.exists()]. *)
Definition exists_ (name : string) : Handler bool :=
  call (fun m _ => inr (bool_decide (is_Some (m !! name)), m)).

(** [blobClient.getProperties()]. *)
Definition getProperties (name : string) : Handler Blob :=
  call (fun m _ => match m !! name with
                   | Some b => inr (b, m)
                   | None => inl blobNotFound
                   end).

(** [blobClient.download()], with the bytes its [readableStreamBody]
    delivers. *)
Definition download (name : string) : Handler (list byte) :=
  call (fun m _ => match m !! name with
                   | Some b => inr (content b, m)
                   | None => inl blobNotFound
                   end).

(** [blobClient.delete()]. *)
Definition delete (name : string) : Handler unit :=
  call (fun m _ => match m !! name with
                   | Some _ => inr (tt, base.delete name m)
                   | None => inl blobNotFound
                   end).

(** [blockBlobClient.upload(data, data.length, {blobHTTPHeaders:
    {blobContentType}})]: the blob is created or replaced as a whole. *)
Definition upload (name : string) (data : list byte) (blobContentType : string) : Handler unit :=
  call (fun m t => inr (tt, <[name := {| content := data;
                                          contentType := Some blobContentType;
                                          lastModified := t |}]> m)).

(** [containerClient.listBlobsFlat()]: every blob with its name and
    properties, in the enumeration order of the container. *)
Definition listBlobsFlat : Handler (list (string * Blob)) :=
  call (fun m _ => inr (map_to_list m, m)).

End Sdk.

(** ** The routes of server.js *)

Module Server.

Section Routes.

(** [containerClient.getBlobClient(name).url], fixed by the connection
    string and the SDK's escaping of blob names. *)
Variable blobUrl : string -> string.

(** The double-quote character, as a string. *)
Definition dquote : string := String "034"%char EmptyString.

Definition failure (msg : string) : JsVal :=
  VObj [("success", VBool false); ("error", VStr msg)].

(** [app.post('/api/upload', upload.single('file'), ...)]: the route
    handler, run with [req.file = file] when [Date.now()] is [now]. *)
Definition uploadRoute (now : N) (file : option Multer.File) : Handler unit :=
  try_catch
    (match file with
     | None =>
         res_status 400 ;;
         res_json (VObj [("error", VStr "No file uploaded")])
     | Some f =>
         let fileName := pretty now +:+ "-" +:+ Multer.originalname f in
         Sdk.upload fileName (Multer.buffer f) (Multer.mimetype f) ;;
         res_json (VObj [("success", VBool true);
                         ("message", VStr "File uploaded successfully");
                         ("fileName", VStr fileName);
                         ("originalName", VStr (Multer.originalname f));
                         ("size", VNum (Multer.size f));
                         ("contentType", VStr (Multer.mimetype f))])
     end)
    (fun error =>
       res_status 500 ;;
       res_json (failure ("Upload failed: " +:+ message error))).

Definition opt_str (o : option string) : JsVal :=
  match o with
  | Some s => VStr s
  | None => VUndefined
  end.

(** The object pushed onto [files] for one enumerated blob. *)
Definition fileEntry (blob : string * Blob) : JsVal :=
  VObj [("name", VStr (fst blob));
        ("originalName", VStr (Js.join "-" (Js.slice1 (Js.split "-" (fst blob)))));
        ("size", VNum (contentLength (snd blob)));
        ("contentType", opt_str (contentType (snd blob)));
        ("lastModified", VDate (lastModified (snd blob)));
        ("url", VStr (blobUrl (fst blob)))].

(** [app.get('/api/files', ...)]. *)
Definition listRoute : Handler unit :=
  try_catch
    (let! listing := Sdk.listBlobsFlat in
     let! files := for_each listing (fun blob =>
                     let! properties := Sdk.getProperties (fst blob) in
                     ret (fileEntry blob)) in
     res_json (VObj [("success", VBool true); ("files", VArr files)]))
    (fun error =>
       res_status 500 ;;
       res_json (failure ("Failed to list files: " +:+ message error))).

(** [app.get('/api/download/:fileName', ...)]. *)
Definition downloadRoute (fileName : string) : Handler unit :=
  try_catch
    (let! exists_ := Sdk.exists_ fileName in
     if negb exists_
     then res_status 404 ;; res_json (failure "File not found")
     else
       let! properties := Sdk.getProperties fileName in
       setHeader "Content-Disposition"
                 ("attachment; filename=" +:+ dquote +:+ fileName +:+ dquote) ;;
       setHeader "Content-Type"
                 (Js.or_else (contentType properties) "application/octet-stream") ;;
       setHeader "Content-Length" (pretty (contentLength properties)) ;;
       let! downloaded := Sdk.download fileName in
       pipe downloaded)
    (fun error =>
       res_status 500 ;;
       res_json (failure ("Download failed: " +:+ message error))).

(** [app.delete('/api/files/:fileName', ...)]. *)
Definition deleteRoute (fileName : string) : Handler unit :=
  try_catch
    (let! exists_ := Sdk.exists_ fileName in
     if negb exists_
     then res_status 404 ;; res_json (failure "File not found")
     else
       Sdk.delete fileName ;;
       res_json (VObj [("success", VBool true);
                       ("message", VStr "File deleted successfully")]))
    (fun error =>
       res_status 500 ;;
       res_json (failure ("Delete failed: " +:+ message error))).

(** The error-handling middleware [app.use((error, req, res, next) => ...)]. *)
Definition errorMiddleware (error : JsError) : Handler unit :=
  match error with
  | MulterError code _ =>
      if String.eqb code "LIMIT_FILE_SIZE"
      then res_status 400 ;; res_json (failure "File too large. Maximum size is 10MB")
      else res_status 500 ;; res_json (failure (message error))
  | Error _ => res_status 500 ;; res_json (failure (message error))
  end.

(** [POST /api/upload] end to end: multer, then the route or the error
    middleware. *)
Definition postUpload (now : N) (req : option Multer.FilePart) : Handler unit :=
  match Multer.single "file" req with
  | inl error => errorMiddleware error
  | inr file => uploadRoute now file
  end.

(** Serve one request: run the handler on a fresh response. *)
Definition serve (h : Handler unit) (w : World) : Res * World :=
  let st := snd (h {| world := w; res := res0 |}) in (res st, world st).

End Routes.

End Server.

(** ** The vocabulary of the specification

    The specification speaks of the extension of a name as the text after
    its last '.', and of an allow-list of extensions written without the
    dot. *)

Module Spec.

Definition allowList : list string :=
  ["txt"; "pdf"; "png"; "jpg"; "jpeg"; "gif"; "doc"; "docx"; "xls"; "xlsx"].

(** The text after the last '.', empty when the name has no '.'. *)
Definition extensionOf (name : string) : string :=
  match Js.split "." name with
  | _ :: seg :: segs => default EmptyString (last (seg :: segs))
  | _ => EmptyString
  end.

(** The only '.' of the name is its first character. *)
Definition leadingDotOnly (name : string) : bool :=
  match Js.split "." name with
  | [EmptyString; _] => true
  | _ => false
  end.

Definition is_digit (c : ascii) : bool :=
  ((48 <=? N_of_ascii c) && (N_of_ascii c <=? 57))%N.

(** The name starts with a non-empty run of digits followed by '-'. *)
Definition numericPrefixed (name : string) : bool :=
  match Js.split "-" name with
  | seg :: _ :: _ => negb (String.eqb seg EmptyString) && forallb is_digit (Js.chars seg)
  | _ => false
  end.

(** An upload candidate that the multer instance hands to the route: a
    named file under the field [file] that passes the type filter and
    stays below the size limit. *)
(** [key = currentEpochMillis() + "-" + originalName]. *)
Definition keyOf (now : N) (originalName : string) : string :=
  pretty now +:+ "-" +:+ originalName.

Definition accepted (p : Multer.FilePart) : Prop :=
  Multer.part_field p = "file" /\
  Multer.part_filename p <> EmptyString /\
  Multer.fileFilter (Multer.part_filename p) = (None, true) /\
  (N.of_nat (length (Multer.part_data p)) < Multer.fileSize)%N.

(** The blob that a write of this candidate leaves in the container. *)
Definition blobOf (p : Multer.FilePart) (stamp : N) : Blob :=
  {| content := Multer.part_data p;
     contentType := Some (Multer.part_type p);
     lastModified := stamp |}.

(** [list()] as the claim puts it: the handler of [GET /api/files] with
    the per-key [getProperties] call taken out. *)
Definition listRoute_without_fetch (blobUrl : string -> string) : Handler unit :=
  try_catch
    (let! listing := Sdk.listBlobsFlat in
     let! files := for_each listing (fun blob => ret (Server.fileEntry blobUrl blob)) in
     res_json (VObj [("success", VBool true); ("files", VArr files)]))
    (fun error =>
       res_status 500 ;;
       res_json (Server.failure ("Failed to list files: " +:+ message error))).

End Spec.

(** ** The browser script (public/script.js)

    The functions of the page that compute on strings: the check
    [uploadFile] makes before it posts a file, [truncateFileName] and
    [getFileIcon].  What they do to the page (toasts, the progress bar, the
    request itself) is left at the point where it starts. *)

Module JsString.

(** [a.pop()] on the array a [split] returns (never empty). *)
Definition pop (a : list string) : string := default EmptyString (last a).

Fixpoint lastIndexOf_from (c : ascii) (s : string) (i found : Z) : Z :=
  match s with
  | EmptyString => found
  | String a s' => lastIndexOf_from c s' (i + 1) (if Ascii.eqb a c then i else found)
  end.

(** [s.lastIndexOf(c)] for a one-character needle: [-1] when absent. *)
Definition lastIndexOf (s : string) (c : ascii) : Z := lastIndexOf_from c s 0 (-1).

(** [s.substring(0, e)]: a negative [e] counts as 0 and an [e] beyond the
    length as the length. *)
Definition substring0 (s : string) (e : Z) : string :=
  Js.of_chars (take (Z.to_nat e) (Js.chars s)).

(** [s.startsWith(prefix)]. *)
Definition startsWith (s prefix : string) : bool := String.prefix prefix s.

(** [s.includes(needle)] for a string needle. *)
Fixpoint includes (s needle : string) : bool :=
  String.prefix needle s
  || match s with
     | EmptyString => false
     | String _ s' => includes s' needle
     end.

End JsString.

Module Client.

Definition allowedTypes : list string :=
  [".txt"; ".pdf"; ".png"; ".jpg"; ".jpeg"; ".gif"; ".doc"; ".docx"; ".xls"; ".xlsx"].

(** [showToast(type, title, message)]. *)
Record Toast := { toast_type : string; toast_title : string; toast_message : string }.

(** How the validation at the head of [uploadFile] ends: with a toast and
    an early return, or by going on to post the file. *)
Inductive Checked :=
| Refused (t : Toast)
| Posted.

(** [uploadFile(file)], up to the point where the form is sent; [name] is
    [file.name] and [size] is [file.size]. *)
Definition uploadFile (name : string) (size : N) : Checked :=
  let fileExt := "." +:+ Js.toLowerCase (JsString.pop (Js.split "." name)) in
  if negb (Js.includes allowedTypes fileExt)
  then Refused {| toast_type := "error"; toast_title := "Invalid File Type";
                  toast_message := "File type " +:+ fileExt
                                   +:+ " is not allowed. Please select a valid file type." |}
  else if (10 * 1024 * 1024 <? size)%N
  then Refused {| toast_type := "error"; toast_title := "File Too Large";
                  toast_message := "File size must be less than 10MB." |}
  else Posted.

(** [truncateFileName(filename, maxLength)]. *)
Definition truncateFileName (filename : string) (maxLength : Z) : string :=
  if Js.strlen filename <=? maxLength then filename
  else
    let extension := JsString.pop (Js.split "." filename) in
    let name := JsString.substring0 filename (JsString.lastIndexOf filename ".") in
    let truncatedName :=
      JsString.substring0 name (maxLength - Js.strlen extension - 4) +:+ "..." in
    truncatedName +:+ "." +:+ extension.

(** [getFileIcon(contentType)]; [None] is an undefined content type, which
    like the empty string is falsy. *)
Definition getFileIcon (contentType : option string) : string :=
  match contentType with
  | None => "fa-file"
  | Some EmptyString => "fa-file"
  | Some ct =>
      if JsString.startsWith ct "image/" then "fa-file-image"
      else if JsString.includes ct "pdf" then "fa-file-pdf"
      else if JsString.includes ct "word" || JsString.includes ct "document"
      then "fa-file-word"
      else if JsString.includes ct "excel" || JsString.includes ct "spreadsheet"
      then "fa-file-excel"
      else if JsString.includes ct "text" then "fa-file-alt"
      else "fa-file"
  end.

End Client.

(** ** Responses and sample data that recur in the statements *)

(** The property [key] of a JSON response body. *)
Definition json_field (key : string) (r : Res) : option JsVal :=
  match body r with
  | Some (JsonBody v) => field key v
  | _ => None
  end.

Definition notFound : Res :=
  {| statusCode := 404; headers := ∅;
     body := Some (JsonBody (Server.failure "File not found")) |}.

Definition deleted : Res :=
  {| statusCode := 200; headers := ∅;
     body := Some (JsonBody (VObj [("success", VBool true);
                                   ("message", VStr "File deleted successfully")])) |}.

(** The success response of [GET /api/files]. *)
Definition listed (files : list JsVal) : Res :=
  {| statusCode := 200; headers := ∅;
     body := Some (JsonBody (VObj [("success", VBool true); ("files", VArr files)])) |}.

Definition tooLarge : Res :=
  {| statusCode := 400; headers := ∅;
     body := Some (JsonBody (Server.failure "File too large. Maximum size is 10MB")) |}.

(** The success response of [POST /api/upload] for candidate [p] stored
    under [key]. *)
Definition uploaded (key : string) (p : Multer.FilePart) : Res :=
  {| statusCode := 200; headers := ∅;
     body := Some (JsonBody (VObj [("success", VBool true);
                                   ("message", VStr "File uploaded successfully");
                                   ("fileName", VStr key);
                                   ("originalName", VStr (Multer.part_filename p));
                                   ("size", VNum (N.of_nat (length (Multer.part_data p))));
                                   ("contentType", VStr (Multer.part_type p))])) |}.

(** The value of the [Content-Disposition] header for a key. *)
Definition dispositionOf (key : string) : string :=
  "attachment; filename=" +:+ Server.dquote +:+ key +:+ Server.dquote.

(** The value of the [Content-Type] header for a blob. *)
Definition typeOf (b : Blob) : string :=
  Js.or_else (contentType b) "application/octet-stream".

(** A 500 response with the common error body. *)
Definition serverError (msg : string) : Res :=
  {| statusCode := 500; headers := ∅; body := Some (JsonBody (Server.failure msg)) |}.

(** The world after one SDK call consumed the head of the fault schedule. *)
Definition after_fault (rest : list (option string)) (w : World) : World :=
  {| blobs := blobs w; faults := rest; backendTime := backendTime w |}.

(** The shape [{success: false, error: <message>}]. *)
Definition errorShaped (r : Res) : Prop :=
  json_field "success" r = Some (VBool false)
  /\ exists msg, json_field "error" r = Some (VStr msg).

Module Sample.

Definition emptyWorld : World := {| blobs := ∅; faults := []; backendTime := 1700000000123 |}.

Definition notes : Multer.FilePart :=
  {| Multer.part_field := "file"; Multer.part_filename := "notes.txt";
     Multer.part_type := "text/plain"; Multer.part_data := [x68; x69; x0a] |}.

Definition notes2 : Multer.FilePart :=
  {| Multer.part_field := "file"; Multer.part_filename := "notes.txt";
     Multer.part_type := "text/plain"; Multer.part_data := [x62; x79; x65; x0a] |}.

Definition notesBlob : Blob :=
  {| content := [x68; x69; x0a]; contentType := Some "text/plain";
     lastModified := 1700000000123 |}.

Definition report : Multer.FilePart :=
  {| Multer.part_field := "file"; Multer.part_filename := "2024-report.pdf";
     Multer.part_type := "application/pdf"; Multer.part_data := [x25; x50; x44; x46] |}.

(** A container holding one blob, behind a backend whose next call fails. *)
Definition failing : World :=
  {| blobs := {[ "1700000000000-notes.txt" := notesBlob ]};
     faults := [Some "socket hang up"]; backendTime := 1700000000456 |}.

(** The same container when the third call from now fails. *)
Definition failingThird : World :=
  {| blobs := {[ "1700000000000-notes.txt" := notesBlob ]};
     faults := [None; None; Some "socket hang up"]; backendTime := 1700000000456 |}.



(** A container holding one blob. *)
Definition oneBlob : World :=
  {| blobs := {[ "1700000000000-notes.txt" := notesBlob ]};
     faults := []; backendTime := 1700000000456 |}.

(** A body of 11 MiB. *)
Definition elevenMiB : list byte := replicate (N.to_nat (11 * 1024 * 1024)) x00.

Definition bigMalware : Multer.FilePart :=
  {| Multer.part_field := "file"; Multer.part_filename := "malware.exe";
     Multer.part_type := "application/octet-stream"; Multer.part_data := elevenMiB |}.

Definition bigPhoto : Multer.FilePart :=
  {| Multer.part_field := "file"; Multer.part_filename := "photo.JPG";
     Multer.part_type := "image/jpeg"; Multer.part_data := elevenMiB |}.

Definition url (name : string) : string := "https://account.blob.core.windows.net/files/" +:+ name.

End Sample.

(** * Properties *)

(** ** Strings: [split], [join], [contains] *)

Section StringFacts.

Implicit Types (s t : string) (c sep : ascii).

Lemma append_cons a s t : String a s +:+ t = String a (s +:+ t).
Proof. reflexivity. Qed.

Lemma append_nil_l s : EmptyString +:+ s = s.
Proof. reflexivity. Qed.

Lemma chars_append s t : Js.chars (s +:+ t) = Js.chars s ++ Js.chars t.
Proof.
  induction s as [|a s IH]; [reflexivity|].
  rewrite append_cons. simpl. now rewrite IH.
Qed.

Lemma chars_length s : length (Js.chars s) = String.length s.
Proof. induction s as [|a s IH]; simpl; [reflexivity | now rewrite IH]. Qed.

Lemma of_chars_chars s : Js.of_chars (Js.chars s) = s.
Proof. apply string_of_list_ascii_of_string. Qed.

Lemma contains_false_iff c s : Js.contains c s = false <-> c ∉ Js.chars s.
Proof.
  induction s as [|a s IH]; simpl.
  - split; [intros _; apply not_elem_of_nil | reflexivity].
  - rewrite not_elem_of_cons, orb_false_iff, IH, Ascii.eqb_neq.
    split; intros [H1 H2]; split; auto.
Qed.

Lemma contains_append c s t :
  Js.contains c (s +:+ t) = Js.contains c s || Js.contains c t.
Proof.
  induction s as [|a s IH]; [reflexivity|].
  rewrite append_cons. simpl. now rewrite IH, orb_assoc.
Qed.

Lemma split_nonempty sep s : exists seg segs, Js.split sep s = seg :: segs.
Proof.
  destruct s as [|a s]; simpl; [eauto|].
  destruct (Ascii.eqb a sep); [eauto|].
  destruct (Js.split sep s); eauto.
Qed.

(** A string without the separator is its own single segment. *)
Lemma split_no_sep sep s : Js.contains sep s = false -> Js.split sep s = [s].
Proof.
  induction s as [|a s IH]; simpl; [reflexivity|].
  intros [Ha Hs]%orb_false_iff. rewrite Ha, (IH Hs). reflexivity.
Qed.

(** The first segment ends at the first separator. *)
Lemma split_first_segment sep s t :
  Js.contains sep s = false ->
  Js.split sep (s +:+ String sep t) = s :: Js.split sep t.
Proof.
  induction s as [|a s IH].
  - intros _. rewrite append_nil_l. simpl. now rewrite Ascii.eqb_refl.
  - intros [Ha Hs]%orb_false_iff. rewrite append_cons. simpl.
    rewrite Ha, (IH Hs). reflexivity.
Qed.

Lemma join_cons_char (d : string) a seg segs :
  Js.join d (String a seg :: segs) = String a (Js.join d (seg :: segs)).
Proof. destruct segs; reflexivity. Qed.

Lemma join_cons2 (d : string) x y l :
  Js.join d (x :: y :: l) = x +:+ d +:+ Js.join d (y :: l).
Proof. reflexivity. Qed.

(** Joining the segments with the separator gives the string back. *)
Lemma join_split sep s : Js.join (String sep EmptyString) (Js.split sep s) = s.
Proof.
  induction s as [|a s IH]; [reflexivity|].
  cbn [Js.split]. destruct (Ascii.eqb_spec a sep) as [->|Hne].
  - destruct (split_nonempty sep s) as (seg & segs & E).
    rewrite E in *. rewrite join_cons2, IH. reflexivity.
  - destruct (split_nonempty sep s) as (seg & segs & E).
    rewrite E in *. rewrite join_cons_char, IH. reflexivity.
Qed.

(** Either the string has no separator, or it ends in a last segment
    that follows its last separator. *)
Lemma split_last_segment sep s :
  (Js.contains sep s = false /\ Js.split sep s = [s]) \/
  (exists stem ext,
      s = stem +:+ String sep ext /\ Js.contains sep ext = false /\
      Js.split sep s = Js.split sep stem ++ [ext]).
Proof.
  induction s as [|a s IH]; [left; split; reflexivity|].
  cbn [Js.split Js.contains]. destruct (Ascii.eqb_spec a sep) as [->|Hne].
  - right. destruct IH as [[Hno E] | (stem & ext & -> & Hno & E)].
    + exists EmptyString, s. rewrite E. repeat split; auto.
    + exists (String sep stem), ext. rewrite E. cbn [Js.split].
      rewrite Ascii.eqb_refl. repeat split; auto.
  - destruct IH as [[Hno E] | (stem & ext & -> & Hno & E)].
    + left. rewrite E, Hno. split; reflexivity.
    + right. exists (String a stem), ext. rewrite E. cbn [Js.split].
      apply Ascii.eqb_neq in Hne. rewrite Hne.
      destruct (split_nonempty sep stem) as (seg & segs & E'). rewrite E'.
      repeat split; auto.
Qed.

Lemma includes_dotted (l : list string) e :
  Js.includes (map (String ".") l) (String "." e) = Js.includes l e.
Proof.
  induction l as [|x l IH]; [reflexivity|].
  cbn [map Js.includes]. rewrite IH. reflexivity.
Qed.

End StringFacts.

(** ** [path.extname] on names without a path separator *)

Section ExtnameFacts.

Import Path.

Implicit Types (i d e p : Z) (st : Scan).

Ltac zeqb_cases :=
  repeat match goal with
         | |- context [Z.eqb ?a ?b] => destruct (Z.eqb_spec a b); try lia
         end.

Lemma scan_cons_noslash c rest i st :
  c <> "/"%char ->
  scan (c :: rest) i st = scan rest (i - 1) (see_char c i (mark_end i st)).
Proof. intros Hc. simpl. apply Ascii.eqb_neq in Hc. now rewrite Hc. Qed.

Lemma mark_end_set i d s p b e :
  0 <= e -> mark_end i (mkScan d s e b p) = mkScan d s e b p.
Proof.
  intros He. unfold mark_end. simpl.
  destruct (Z.eqb_spec e (-1)); [lia | reflexivity].
Qed.

(** Before the first dot, plain characters leave the state alone once
    the end of the name is marked. *)
Lemma scan_ext rext rest i e :
  Forall plain rext -> 0 <= e ->
  scan (rext ++ rest) i (mkScan (-1) 0 e false 0)
  = scan rest (i - Z.of_nat (length rext)) (mkScan (-1) 0 e false 0).
Proof.
  intros Hplain He. revert i.
  induction Hplain as [|c r [Hdot Hslash] _ IH]; intros i.
  - simpl. f_equal. lia.
  - rewrite <- app_comm_cons, scan_cons_noslash, mark_end_set by assumption.
    unfold see_char. apply Ascii.eqb_neq in Hdot. rewrite Hdot. simpl.
    rewrite IH. f_equal. simpl length. lia.
Qed.

(** Scanning the extension and the dot in front of it, from the initial
    state. *)
Lemma scan_to_dot rext rest i :
  Forall plain rext -> 0 <= i - Z.of_nat (length rext) ->
  scan (rext ++ "."%char :: rest) i scan0
  = scan rest (i - Z.of_nat (length rext) - 1)
         (mkScan (i - Z.of_nat (length rext)) 0 (i + 1) false 0).
Proof.
  intros Hplain Hi. destruct Hplain as [|c r [Hdot Hslash] Hr].
  - simpl. f_equal; [lia|]. unfold see_char, mark_end. simpl. f_equal. lia.
  - simpl length in *.
    rewrite <- app_comm_cons, scan_cons_noslash by assumption.
    unfold see_char at 1. apply Ascii.eqb_neq in Hdot. rewrite Hdot.
    unfold mark_end, scan0. simpl.
    rewrite scan_ext by (assumption || lia).
    rewrite scan_cons_noslash, mark_end_set by (discriminate || lia).
    unfold see_char. simpl. f_equal; [lia|]. f_equal. lia.
Qed.

(** After the dot, only the first character of the name decides
    [preDotState]. *)
Lemma scan_stem rstem i d e p :
  Forall (fun c => c <> "/"%char) rstem -> 0 <= d -> 0 <= e ->
  scan rstem i (mkScan d 0 e false p)
  = mkScan d 0 e false
      (match last rstem with
       | None => p
       | Some c => if Ascii.eqb c "." then 1 else -1
       end).
Proof.
  intros Hns Hd He. revert i p.
  induction Hns as [|c r Hslash _ IH]; intros i p; [reflexivity|].
  rewrite scan_cons_noslash, mark_end_set by assumption.
  assert (see_char c i (mkScan d 0 e false p)
          = mkScan d 0 e false (if Ascii.eqb c "." then 1 else -1)) as ->.
  { unfold see_char. simpl. destruct (Z.eqb_spec d (-1)); [lia|]. simpl.
    destruct (Ascii.eqb c "."); [|reflexivity].
    destruct (Z.eqb_spec p 1); [subst|]; reflexivity. }
  rewrite IH, last_cons. destruct (last r); reflexivity.
Qed.

Lemma scan_plain_startDot r i st :
  Forall plain r -> startDot st = -1 -> startDot (scan r i st) = -1.
Proof.
  intros Hplain. revert i st.
  induction Hplain as [|c r [Hdot Hslash] _ IH]; intros i st Hst; [assumption|].
  rewrite scan_cons_noslash by assumption. apply IH.
  unfold see_char. apply Ascii.eqb_neq in Hdot. rewrite Hdot.
  unfold mark_end. destruct (endIdx st =? -1); simpl; rewrite Hst; simpl; auto.
Qed.

Lemma plain_chars s :
  Js.contains "." s = false -> Js.contains "/" s = false -> Forall plain (Js.chars s).
Proof.
  intros Hd%contains_false_iff Hs%contains_false_iff.
  apply Forall_forall. intros c Hc. split; intros ->; auto.
Qed.

Lemma noslash_chars s :
  Js.contains "/" s = false -> Forall (fun c => c <> "/"%char) (Js.chars s).
Proof.
  intros Hs%contains_false_iff. apply Forall_forall. intros c Hc ->. auto.
Qed.

(** A name without '.' has no extension. *)
Lemma extname_no_dot name :
  Js.contains "." name = false -> Js.contains "/" name = false ->
  extname name = EmptyString.
Proof.
  intros Hd Hs. unfold extname.
  rewrite scan_plain_startDot; [reflexivity| |reflexivity].
  apply Forall_rev, plain_chars; assumption.
Qed.

(** A name that ends in [.ext]: the extension is [.ext] unless the dot is
    the first character of the name or the name is [..]. *)
Lemma extname_stem_ext stem ext :
  Js.contains "/" stem = false -> Js.contains "/" ext = false ->
  Js.contains "." ext = false ->
  extname (stem +:+ String "." ext)
  = if String.eqb stem EmptyString
       || (String.eqb stem (String "." EmptyString) && String.eqb ext EmptyString)
    then EmptyString
    else String "." ext.
Proof.
  intros Hstem Hext Hdot. unfold extname.
  set (name := stem +:+ String "." ext).
  assert (Js.chars name = Js.chars stem ++ "."%char :: Js.chars ext) as Hchars
    by (unfold name; now rewrite chars_append).
  assert (Js.strlen name
          = Z.of_nat (length (Js.chars stem)) + 1 + Z.of_nat (length (Js.chars ext))) as Hlen.
  { unfold Js.strlen. rewrite <- chars_length, Hchars, length_app, length_cons. lia. }
  rewrite Hchars, rev_app_distr. simpl rev. rewrite <- app_assoc. simpl app.
  rewrite scan_to_dot;
    [|apply Forall_rev, plain_chars; assumption | rewrite length_rev; lia].
  rewrite length_rev, scan_stem;
    [|apply Forall_rev, noslash_chars; assumption | lia | lia].
  cbn [startDot endIdx preDotState startPart].
  replace (Js.strlen name - 1 - Z.of_nat (length (Js.chars ext)))
    with (Z.of_nat (length (Js.chars stem))) by lia.
  replace (Js.strlen name - 1 + 1) with (Js.strlen name) by lia.
  destruct (Z.eqb_spec (Z.of_nat (length (Js.chars stem))) (-1)) as [?|_]; [lia|].
  destruct (Z.eqb_spec (Js.strlen name) (-1)) as [?|_]; [lia|].
  assert (Js.slice name (Z.of_nat (length (Js.chars stem))) (Js.strlen name)
          = String "." ext) as Hslice.
  { unfold Js.slice. rewrite Hchars, Nat2Z.id, drop_app_length.
    rewrite take_ge by (rewrite length_cons; lia).
    unfold Js.of_chars. simpl. f_equal. apply of_chars_chars. }
  rewrite Hslice. clear Hslice Hchars. simpl orb.
  destruct stem as [|c stem']; [reflexivity|].
  simpl Js.chars in *. simpl rev. rewrite last_snoc.
  cbn [String.eqb orb]. rewrite length_cons in *.
  destruct (Ascii.eqb_spec c ".") as [->|Hc].
  - simpl (1 =? 0). cbn [orb]. rewrite Z.eqb_refl. cbn [andb].
    destruct stem' as [|c' stem'']; destruct ext as [|x ext'];
      cbn [String.eqb andb length Js.chars list_ascii_of_string] in *;
      rewrite Hlen; zeqb_cases; reflexivity.
  - reflexivity.
Qed.

End ExtnameFacts.

(** ** The type filter *)

Section FilterFacts.

Lemma contains_stem_ext c stem ext :
  Js.contains c (stem +:+ String "." ext) = false ->
  Js.contains c stem = false /\ Js.contains c ext = false.
Proof.
  rewrite contains_append. simpl.
  intros [H1 [H2 H3]%orb_false_iff]%orb_false_iff. auto.
Qed.

Lemma split_stem_ext stem ext :
  Js.contains "." ext = false ->
  Js.split "." (stem +:+ String "." ext) = Js.split "." stem ++ [ext].
Proof.
  intros Hext. induction stem as [|a stem IH].
  - rewrite append_nil_l. simpl. rewrite (split_no_sep _ _ Hext). reflexivity.
  - rewrite append_cons. simpl. rewrite IH.
    destruct (split_nonempty "." stem) as (sg & sgs & ->).
    destruct (Ascii.eqb a "."); reflexivity.
Qed.

Lemma extensionOf_stem_ext stem ext :
  Js.contains "." ext = false ->
  Spec.extensionOf (stem +:+ String "." ext) = ext.
Proof.
  intros Hext. unfold Spec.extensionOf. rewrite split_stem_ext by assumption.
  destruct (split_nonempty "." stem) as (seg & segs & ->).
  destruct segs as [|s1 r]; [reflexivity|].
  change ((seg :: s1 :: r) ++ [ext]) with (seg :: (s1 :: r) ++ [ext]).
  cbv beta iota. destruct ((s1 :: r) ++ [ext]) as [|x l] eqn:E; [discriminate|].
  rewrite <- E, last_snoc. reflexivity.
Qed.

Lemma leadingDotOnly_stem_ext stem ext :
  Js.contains "." ext = false ->
  Spec.leadingDotOnly (stem +:+ String "." ext) = String.eqb stem EmptyString.
Proof.
  intros Hext. unfold Spec.leadingDotOnly. rewrite split_stem_ext by assumption.
  destruct stem as [|a stem]; [reflexivity|]. simpl.
  destruct (split_nonempty "." stem) as (sg & sgs & ->).
  destruct (Ascii.eqb a "."); [|reflexivity].
  simpl. destruct sgs; reflexivity.
Qed.

Lemma toLowerCase_dotted e :
  Js.toLowerCase (String "." e) = String "." (Js.toLowerCase e).
Proof. reflexivity. Qed.

(** What the filter tests, in the vocabulary of the specification. *)
Lemma filter_test name :
  Js.contains "/" name = false ->
  Js.includes Multer.allowedTypes (Js.toLowerCase (Path.extname name))
  = Js.includes Spec.allowList (Js.toLowerCase (Spec.extensionOf name))
    && negb (Spec.leadingDotOnly name).
Proof.
  intros Hslash.
  destruct (split_last_segment "." name)
    as [[Hno Hsplit] | (stem & ext & -> & Hno & _)].
  - rewrite extname_no_dot by assumption.
    unfold Spec.extensionOf. rewrite Hsplit. reflexivity.
  - destruct (contains_stem_ext _ _ _ Hslash) as [Hs1 Hs2].
    rewrite extname_stem_ext, extensionOf_stem_ext, leadingDotOnly_stem_ext
      by assumption.
    destruct stem as [|a stem].
    + simpl. now rewrite andb_false_r.
    + cbn [String.eqb orb negb]. rewrite andb_true_r.
      assert (Js.includes Multer.allowedTypes (Js.toLowerCase (String "." ext))
              = Js.includes Spec.allowList (Js.toLowerCase ext)) as Hdotted.
      { rewrite toLowerCase_dotted.
        change Multer.allowedTypes with (map (String ".") Spec.allowList).
        apply includes_dotted. }
      destruct (Ascii.eqb a "."); [|exact Hdotted].
      destruct (String.eqb stem EmptyString); [|exact Hdotted].
      destruct (String.eqb_spec ext EmptyString) as [->|_]; [reflexivity|exact Hdotted].
Qed.

End FilterFacts.

(** ** Running the SDK and the routes *)

Section SdkFacts.

Implicit Types (w : World) (r : Res) (m : gmap string Blob).

Lemma with_blobs_same w : with_blobs (blobs w) w = w.
Proof. destruct w; reflexivity. Qed.

(** With nothing left on the fault schedule a call runs its operation. *)
Lemma call_quiet {A : Type} (op : gmap string Blob -> N -> JsError + (A * gmap string Blob)) w r :
  faults w = [] ->
  Sdk.call op {| world := w; res := r |}
  = match op (blobs w) (backendTime w) with
    | inl e => (Thrown e, {| world := w; res := r |})
    | inr (a, m) => (Returned a, {| world := with_blobs m w; res := r |})
    end.
Proof.
  intros Hq. unfold Sdk.call, Sdk.next_fault. simpl. rewrite Hq. reflexivity.
Qed.

Lemma exists_quiet name w r :
  faults w = [] ->
  Sdk.exists_ name {| world := w; res := r |}
  = (Returned (bool_decide (is_Some (blobs w !! name))), {| world := w; res := r |}).
Proof.
  intros Hq. unfold Sdk.exists_. rewrite call_quiet by assumption.
  now rewrite with_blobs_same.
Qed.

Lemma getProperties_quiet name b w r :
  faults w = [] -> blobs w !! name = Some b ->
  Sdk.getProperties name {| world := w; res := r |}
  = (Returned b, {| world := w; res := r |}).
Proof.
  intros Hq Hb. unfold Sdk.getProperties. rewrite call_quiet by assumption.
  now rewrite Hb, with_blobs_same.
Qed.


Lemma delete_quiet name b w r :
  faults w = [] -> blobs w !! name = Some b ->
  Sdk.delete name {| world := w; res := r |}
  = (Returned tt, {| world := with_blobs (delete name (blobs w)) w; res := r |}).
Proof.
  intros Hq Hb. unfold Sdk.delete. rewrite call_quiet by assumption.
  now rewrite Hb.
Qed.

Lemma upload_quiet name data ctype w r :
  faults w = [] ->
  Sdk.upload name data ctype {| world := w; res := r |}
  = (Returned tt,
     {| world := with_blobs (<[name := {| content := data; contentType := Some ctype;
                                          lastModified := backendTime w |}]> (blobs w)) w;
        res := r |}).
Proof. intros Hq. unfold Sdk.upload. now rewrite call_quiet by assumption. Qed.

Lemma listBlobsFlat_quiet w r :
  faults w = [] ->
  Sdk.listBlobsFlat {| world := w; res := r |}
  = (Returned (map_to_list (blobs w)), {| world := w; res := r |}).
Proof.
  intros Hq. unfold Sdk.listBlobsFlat. rewrite call_quiet by assumption.
  now rewrite with_blobs_same.
Qed.

(** The multer instance lets an accepted candidate through. *)
Lemma single_accepted p :
  Spec.accepted p ->
  Multer.single "file" (Some p)
  = inr (Some {| Multer.originalname := Multer.part_filename p;
                 Multer.mimetype := Multer.part_type p;
                 Multer.buffer := Multer.part_data p;
                 Multer.size := N.of_nat (length (Multer.part_data p)) |}).
Proof.
  intros (Hfield & Hname & Hfilter & Hsize). unfold Multer.single.
  apply String.eqb_neq in Hname. rewrite Hname, Hfield, Hfilter. simpl.
  apply N.leb_gt in Hsize. now rewrite Hsize.
Qed.

End SdkFacts.

Section RouteFacts.

Implicit Types (w : World) (key : string).

Lemma deleteRoute_absent key w :
  faults w = [] -> blobs w !! key = None ->
  Server.serve (Server.deleteRoute key) w = (notFound, w).
Proof.
  intros Hq Hk. unfold Server.serve, Server.deleteRoute, try_catch, bind.
  rewrite exists_quiet by assumption. rewrite Hk. reflexivity.
Qed.

Lemma deleteRoute_present key b w :
  faults w = [] -> blobs w !! key = Some b ->
  Server.serve (Server.deleteRoute key) w
  = (deleted, with_blobs (delete key (blobs w)) w).
Proof.
  intros Hq Hk. unfold Server.serve, Server.deleteRoute, try_catch, bind.
  rewrite exists_quiet by assumption.
  rewrite Hk, bool_decide_true by eauto. cbn [negb]. cbv beta iota.
  rewrite (delete_quiet _ b) by assumption. reflexivity.
Qed.

(** A route built as [try { ... } catch { res.status(500).json(...) }]
    never lets an error escape. *)
Lemma try_catch_returns (body : Handler unit) (code : N) (reply : JsError -> JsVal) st :
  fst (try_catch body (fun error => res_status code ;; res_json (reply error)) st)
  = Returned tt.
Proof.
  unfold try_catch. destruct (body st) as [[[]|e] st']; reflexivity.
Qed.

End RouteFacts.

(** C4. [remove(key)] on an absent key answers 404 and leaves the world as
    it was; on a present key it deletes the blob and answers success, so a
    second [remove] of the same key answers 404 and changes nothing more;
    after one or two calls the key is absent.  Whatever the storage
    backend does, the handler itself never throws. *)
Theorem remove_absent_is_not_found key w :
  faults w = [] ->
  (blobs w !! key = None ->
     Server.serve (Server.deleteRoute key) w = (notFound, w))
  /\ (forall b, blobs w !! key = Some b ->
        let once := Server.serve (Server.deleteRoute key) w in
        let twice := Server.serve (Server.deleteRoute key) (snd once) in
        once = (deleted, with_blobs (delete key (blobs w)) w)
        /\ twice = (notFound, snd once)
        /\ blobs (snd twice) = blobs (snd once)
        /\ blobs (snd once) !! key = None)
  /\ (forall w' res', fst (Server.deleteRoute key {| world := w'; res := res' |}) = Returned tt).
Proof.
  intros Hq. split; [|split].
  - apply deleteRoute_absent; assumption.
  - intros b Hb. cbv zeta. rewrite (deleteRoute_present key b) by assumption.
    cbn [snd]. rewrite deleteRoute_absent; cbn [with_blobs blobs faults];
      [|assumption|apply lookup_delete_eq].
    repeat split. apply lookup_delete_eq.
  - intros w' res'. apply try_catch_returns.
Qed.

(** ** Header values *)

Section HeaderFacts.

Lemma header_safe_append s t :
  header_safe (s +:+ t) = header_safe s && header_safe t.
Proof.
  induction s as [|a s IH]; [reflexivity|].
  rewrite append_cons. simpl. now rewrite IH, andb_assoc.
Qed.

Lemma pretty_N_char_ok d : header_char_ok (pretty_N_char d) = true.
Proof. unfold pretty_N_char. repeat case_match; reflexivity. Qed.

Lemma pretty_N_go_safe x s :
  header_safe s = true -> header_safe (pretty_N_go x s) = true.
Proof.
  revert s. induction (N.lt_wf_0 x) as [x _ IH]. intros s Hs.
  destruct (N.eq_dec x 0%N) as [->|Hx]; [now rewrite pretty_N_go_0|].
  rewrite pretty_N_go_step by lia.
  apply IH; [apply N.div_lt; lia|].
  simpl. now rewrite pretty_N_char_ok.
Qed.

(** A decimal numeral is a valid header value. *)
Lemma pretty_safe (n : N) : header_safe (pretty n) = true.
Proof.
  unfold pretty, pretty_N. case_decide; [reflexivity|].
  now apply pretty_N_go_safe.
Qed.

Lemma dispositionOf_safe key : header_safe (dispositionOf key) = header_safe key.
Proof.
  unfold dispositionOf. rewrite !header_safe_append.
  change (header_safe "attachment; filename=") with true.
  change (header_safe Server.dquote) with true.
  now rewrite andb_true_r.
Qed.



End HeaderFacts.

Section UploadDownloadFacts.

Implicit Types (w : World) (key : string) (p : Multer.FilePart).

(** An accepted candidate is written under its timestamp key. *)
Lemma postUpload_accepted now p w :
  faults w = [] -> Spec.accepted p ->
  Server.serve (Server.postUpload now (Some p)) w
  = (uploaded (Spec.keyOf now (Multer.part_filename p)) p,
     with_blobs (<[Spec.keyOf now (Multer.part_filename p)
                   := Spec.blobOf p (backendTime w)]> (blobs w)) w).
Proof.
  intros Hq Hp. unfold Server.serve, Server.postUpload.
  rewrite single_accepted by assumption.
  unfold Server.uploadRoute, try_catch, bind. cbn [Multer.originalname Multer.buffer Multer.mimetype].
  rewrite upload_quiet by assumption. reflexivity.
Qed.

Lemma downloadRoute_absent key w :
  faults w = [] -> blobs w !! key = None ->
  Server.serve (Server.downloadRoute key) w = (notFound, w).
Proof.
  intros Hq Hk. unfold Server.serve, Server.downloadRoute, try_catch, bind.
  rewrite exists_quiet by assumption. rewrite Hk. reflexivity.
Qed.






End UploadDownloadFacts.


(** C5. A successful upload stores the bytes under the key made of the
    decimal epoch milliseconds, a '-' and the original name, and answers
    with that key as [fileName] together with the original name, the size
    and the content type.  A second upload of a file of the same name in the
    same millisecond gets the same key and replaces the first blob. *)
Theorem upload_key_is_timestamp_dash_name now p w :
  faults w = [] -> Spec.accepted p ->
  let key := pretty now +:+ "-" +:+ Multer.part_filename p in
  let up := Server.serve (Server.postUpload now (Some p)) w in
  fst up = uploaded key p
  /\ json_field "fileName" (fst up) = Some (VStr key)
  /\ json_field "originalName" (fst up) = Some (VStr (Multer.part_filename p))
  /\ json_field "size" (fst up) = Some (VNum (N.of_nat (length (Multer.part_data p))))
  /\ json_field "contentType" (fst up) = Some (VStr (Multer.part_type p))
  /\ blobs (snd up) = <[key := Spec.blobOf p (backendTime w)]> (blobs w)
  /\ (forall q, Spec.accepted q -> Multer.part_filename q = Multer.part_filename p ->
        let again := Server.serve (Server.postUpload now (Some q)) (snd up) in
        json_field "fileName" (fst again) = Some (VStr key)
        /\ blobs (snd again) !! key = Some (Spec.blobOf q (backendTime w))
        /\ blobs (snd again) = <[key := Spec.blobOf q (backendTime w)]> (blobs w)).
Proof.
  intros Hq Hp. cbv zeta. rewrite postUpload_accepted by assumption.
  cbn [fst snd]. repeat (split; [reflexivity|]).
  intros q Hacc Hname. rewrite postUpload_accepted by assumption.
  cbn [fst snd with_blobs blobs backendTime]. rewrite Hname.
  split; [reflexivity|]. split; [apply lookup_insert_eq | apply insert_insert_eq].
Qed.

(** ** Keys and name recovery *)

Section KeyFacts.

Lemma pretty_N_char_not_dash d : Ascii.eqb (pretty_N_char d) "-" = false.
Proof. unfold pretty_N_char. repeat case_match; reflexivity. Qed.

Lemma pretty_N_go_no_dash x s :
  Js.contains "-" s = false -> Js.contains "-" (pretty_N_go x s) = false.
Proof.
  revert s. induction (N.lt_wf_0 x) as [x _ IH]. intros s Hs.
  destruct (N.eq_dec x 0%N) as [->|Hx]; [now rewrite pretty_N_go_0|].
  rewrite pretty_N_go_step by lia.
  apply IH; [apply N.div_lt; lia|].
  simpl. now rewrite pretty_N_char_not_dash.
Qed.

(** The decimal numeral of a timestamp has no '-'. *)
Lemma pretty_no_dash (now : N) : Js.contains "-" (pretty now) = false.
Proof.
  unfold pretty, pretty_N. case_decide; [reflexivity|].
  now apply pretty_N_go_no_dash.
Qed.

(** What [split('-').slice(1).join('-')] computes: the text after the
    first '-'. *)
Lemma recover_after_first_dash stamp rest :
  Js.contains "-" stamp = false ->
  Js.join "-" (Js.slice1 (Js.split "-" (stamp +:+ "-" +:+ rest))) = rest.
Proof.
  intros Hs. change ("-" +:+ rest) with (String "-" rest).
  rewrite split_first_segment by assumption.
  unfold Js.slice1. simpl drop. apply join_split.
Qed.

Lemma recover_no_dash key :
  Js.contains "-" key = false ->
  Js.join "-" (Js.slice1 (Js.split "-" key)) = EmptyString.
Proof. intros Hk. now rewrite split_no_sep. Qed.

Lemma recover_keyOf now name :
  Js.join "-" (Js.slice1 (Js.split "-" (Spec.keyOf now name))) = name.
Proof. apply recover_after_first_dash, pretty_no_dash. Qed.

End KeyFacts.

(** ** Listing *)

Section ListFacts.

Variable blobUrl : string -> string.

Implicit Types (w : World) (l : list (string * Blob)).

Lemma for_each_fetch l w r :
  faults w = [] ->
  (forall k b, (k, b) ∈ l -> blobs w !! k = Some b) ->
  for_each l (fun blob => bind (Sdk.getProperties (fst blob))
                               (fun _ => ret (Server.fileEntry blobUrl blob)))
           {| world := w; res := r |}
  = (Returned (map (Server.fileEntry blobUrl) l), {| world := w; res := r |}).
Proof.
  intros Hq. induction l as [|[k b] l IH]; intros Hl; [reflexivity|].
  cbn [for_each]. unfold bind at 1 2. cbn [fst].
  rewrite (getProperties_quiet k b) by (assumption || apply Hl; left).
  unfold ret at 1. unfold bind at 1.
  rewrite IH by (intros; apply Hl; now right). reflexivity.
Qed.

Lemma for_each_ret {A B : Type} (f : A -> B) (xs : list A) st :
  for_each xs (fun x => ret (f x)) st = (Returned (map f xs), st).
Proof.
  induction xs as [|x xs IH]; [reflexivity|].
  cbn [for_each]. unfold bind at 1. unfold ret at 1. unfold bind at 1.
  rewrite IH. reflexivity.
Qed.

Lemma serve_run (h : Handler unit) w o st' :
  h {| world := w; res := res0 |} = (o, st') ->
  Server.serve h w = (res st', world st').
Proof. intros H. unfold Server.serve. rewrite H. reflexivity. Qed.

Lemma listRoute_quiet w :
  faults w = [] ->
  Server.serve (Server.listRoute blobUrl) w
  = (listed (map (Server.fileEntry blobUrl) (map_to_list (blobs w))), w).
Proof.
  intros Hq.
  apply (serve_run _ _ (Returned tt)
           {| world := w;
              res := listed (map (Server.fileEntry blobUrl) (map_to_list (blobs w))) |}).
  unfold Server.listRoute, try_catch.
  unfold bind at 1. rewrite listBlobsFlat_quiet by assumption.
  unfold bind at 1. rewrite for_each_fetch; [reflexivity | assumption |].
  intros k b Hkb. now apply elem_of_map_to_list.
Qed.

Lemma listRoute_without_fetch_quiet w :
  faults w = [] ->
  Server.serve (Spec.listRoute_without_fetch blobUrl) w
  = (listed (map (Server.fileEntry blobUrl) (map_to_list (blobs w))), w).
Proof.
  intros Hq.
  apply (serve_run _ _ (Returned tt)
           {| world := w;
              res := listed (map (Server.fileEntry blobUrl) (map_to_list (blobs w))) |}).
  unfold Spec.listRoute_without_fetch, try_catch.
  unfold bind at 1. rewrite listBlobsFlat_quiet by assumption.
  unfold bind at 1. rewrite for_each_ret. reflexivity.
Qed.

End ListFacts.

Section ListAnyWorld.

Variable blobUrl : string -> string.

Lemma call_res {A : Type} (op : gmap string Blob -> N -> JsError + (A * gmap string Blob)) st :
  res (snd (Sdk.call op st)) = res st.
Proof.
  unfold Sdk.call. destruct (Sdk.next_fault (world st)) as [[msg|] w]; [reflexivity|].
  destruct (op (blobs w) (backendTime w)) as [e|[a m]]; reflexivity.
Qed.

(** Whatever the backend does, the per-blob fetch leaves the response
    alone and, when the loop completes, the entries are those of the
    enumeration. *)
Lemma for_each_fetch_any (l : list (string * Blob)) st o st' :
  for_each l (fun blob => bind (Sdk.getProperties (fst blob))
                               (fun _ => ret (Server.fileEntry blobUrl blob))) st
  = (o, st') ->
  res st' = res st
  /\ (forall ys, o = Returned ys -> ys = map (Server.fileEntry blobUrl) l).
Proof.
  revert st o st'. induction l as [|[k b] l IH]; intros st o st'.
  - intros [= <- <-]. split; [reflexivity|]. now intros ys [= <-].
  - cbn [for_each]. unfold bind at 1 2. cbn [fst].
    pose proof (call_res (fun m _ => match m !! k with
                                     | Some b0 => inr (b0, m)
                                     | None => inl Sdk.blobNotFound
                                     end) st) as Hres.
    fold (Sdk.getProperties k) in Hres.
    destruct (Sdk.getProperties k st) as [[b'|e] st1]; cbn [snd] in Hres.
    + unfold ret at 1. unfold bind at 1.
      destruct (for_each l _ st1) as [[ys'|e] st2] eqn:E;
        destruct (IH _ _ _ E) as [Hr Hys]; intros [= <- <-];
        (split; [congruence|]); intros ys [= <-].
      now rewrite (Hys ys').
    + intros [= <- <-]. split; [assumption|]. intros ys [=].
Qed.

Lemma serve_res (h : Handler unit) w :
  fst (Server.serve h w) = res (snd (h {| world := w; res := res0 |})).
Proof. reflexivity. Qed.

Lemma listRoute_run st :
  Server.listRoute blobUrl st
  = match Sdk.listBlobsFlat st with
    | (Returned l, st1) =>
        match for_each l (fun blob => bind (Sdk.getProperties (fst blob))
                                           (fun _ => ret (Server.fileEntry blobUrl blob))) st1 with
        | (Returned ys, st2) =>
            res_json (VObj [("success", VBool true); ("files", VArr ys)]) st2
        | (Thrown e, st2) =>
            (res_status 500 ;;
             res_json (Server.failure ("Failed to list files: " +:+ message e))) st2
        end
    | (Thrown e, st1) =>
        (res_status 500 ;;
         res_json (Server.failure ("Failed to list files: " +:+ message e))) st1
    end.
Proof.
  unfold Server.listRoute, try_catch, bind.
  destruct (Sdk.listBlobsFlat st) as [[l|e] st1]; [|reflexivity].
  destruct (for_each l _ st1) as [[ys|e] st2]; reflexivity.
Qed.

Lemma listRoute_without_fetch_run st :
  Spec.listRoute_without_fetch blobUrl st
  = match Sdk.listBlobsFlat st with
    | (Returned l, st1) =>
        res_json (VObj [("success", VBool true);
                        ("files", VArr (map (Server.fileEntry blobUrl) l))]) st1
    | (Thrown e, st1) =>
        (res_status 500 ;;
         res_json (Server.failure ("Failed to list files: " +:+ message e))) st1
    end.
Proof.
  unfold Spec.listRoute_without_fetch, try_catch.
  unfold bind at 1. destruct (Sdk.listBlobsFlat st) as [[l|e] st1]; [|reflexivity].
  unfold bind at 1. rewrite for_each_ret. reflexivity.
Qed.

Lemma listRoute_ok_any_world w :
  statusCode (fst (Server.serve (Server.listRoute blobUrl) w)) = 200%N ->
  fst (Server.serve (Server.listRoute blobUrl) w)
  = fst (Server.serve (Spec.listRoute_without_fetch blobUrl) w).
Proof.
  rewrite !serve_res, listRoute_run, listRoute_without_fetch_run.
  pose proof (call_res (fun m (_ : N) => inr (map_to_list m, m) : JsError + _)
                       {| world := w; res := res0 |}) as Hres.
  fold Sdk.listBlobsFlat in Hres.
  destruct (Sdk.listBlobsFlat {| world := w; res := res0 |}) as [[l|e] st1];
    cbn [snd res] in Hres; [|intros [=]].
  destruct (for_each l _ st1) as [[ys|e] st2] eqn:E; [|intros [=]].
  destruct (for_each_fetch_any _ _ _ _ E) as [Hr Hys].
  intros _. rewrite (Hys ys eq_refl). cbn. now rewrite Hr.
Qed.

End ListAnyWorld.

(** C6. [list()] answers with one entry per stored blob, and each entry's
    [originalName] is recovered from that entry's key: the key with its
    first '-'-delimited segment removed and the rest rejoined with '-',
    which is the text after the first '-'.  The key
    "1700000000000-invoice.pdf" recovers "invoice.pdf"; a key without '-'
    recovers the empty string.  Every stored key has its entry. *)
Theorem list_recovers_original_name (blobUrl : string -> string) w :
  faults w = [] ->
  exists files,
    fst (Server.serve (Server.listRoute blobUrl) w) = listed files
    /\ length files = size (blobs w)
    /\ (forall entry, entry ∈ files ->
          exists key,
            is_Some (blobs w !! key)
            /\ field "name" entry = Some (VStr key)
            /\ field "originalName" entry
               = Some (VStr (Js.join "-" (drop 1 (Js.split "-" key))))
            /\ (forall stamp rest,
                  key = stamp +:+ "-" +:+ rest -> Js.contains "-" stamp = false ->
                  field "originalName" entry = Some (VStr rest))
            /\ (Js.contains "-" key = false ->
                  field "originalName" entry = Some (VStr EmptyString))
            /\ (key = "1700000000000-invoice.pdf" ->
                  field "originalName" entry = Some (VStr "invoice.pdf")))
    /\ (forall key b, blobs w !! key = Some b ->
          exists entry, entry ∈ files /\ field "name" entry = Some (VStr key)).
Proof.
  intros Hq. rewrite listRoute_quiet by assumption.
  eexists. split; [reflexivity|]. split; [|split].
  - rewrite length_map. apply length_map_to_list.
  - intros entry Hin.
    apply list_elem_of_In, in_map_iff in Hin as ([key b] & <- & Hkb).
    apply list_elem_of_In, elem_of_map_to_list in Hkb.
    exists key. split; [eauto|]. split; [reflexivity|]. split; [reflexivity|].
    cbn [field Server.fileEntry get_prop fst].
    cbn [String.eqb Ascii.eqb Bool.eqb]. split; [|split].
    + intros stamp rest -> Hs. now rewrite recover_after_first_dash.
    + intros Hk. now rewrite recover_no_dash.
    + intros ->. reflexivity.
  - intros key b Hb. exists (Server.fileEntry blobUrl (key, b)). split; [|reflexivity].
    apply list_elem_of_In, in_map, list_elem_of_In, elem_of_map_to_list, Hb.
Qed.

(** C9 (amended). Recovery is exact for every key produced by an upload:
    the numeral of the timestamp has no '-', so removing the first
    '-'-delimited segment of the key leaves the original name, also when
    that name itself starts with digits and a '-'.  After an accepted
    upload the listing holds an entry under the returned key whose
    [originalName] is the uploaded name. *)
Theorem registered_name_is_recovered (blobUrl : string -> string) now p w :
  faults w = [] -> Spec.accepted p ->
  (forall stamp name b,
      field "originalName" (Server.fileEntry blobUrl (Spec.keyOf stamp name, b))
      = Some (VStr name))
  /\ let up := Server.serve (Server.postUpload now (Some p)) w in
     exists files entry,
       fst (Server.serve (Server.listRoute blobUrl) (snd up)) = listed files
       /\ entry ∈ files
       /\ Some (VStr (Spec.keyOf now (Multer.part_filename p))) = json_field "fileName" (fst up)
       /\ field "name" entry = json_field "fileName" (fst up)
       /\ field "originalName" entry = Some (VStr (Multer.part_filename p)).
Proof.
  intros Hq Hp.
  assert (forall stamp name b,
             field "originalName" (Server.fileEntry blobUrl (Spec.keyOf stamp name, b))
             = Some (VStr name)) as Hrec.
  { intros stamp name b. cbn [field Server.fileEntry get_prop fst].
    cbn [String.eqb Ascii.eqb Bool.eqb]. now rewrite recover_keyOf. }
  split; [exact Hrec|]. cbv zeta. rewrite postUpload_accepted by assumption.
  cbn [fst snd]. rewrite listRoute_quiet by assumption. cbn [fst].
  eexists. exists (Server.fileEntry blobUrl (Spec.keyOf now (Multer.part_filename p),
                                             Spec.blobOf p (backendTime w))).
  split; [reflexivity|]. split.
  { apply list_elem_of_In, in_map, list_elem_of_In, elem_of_map_to_list.
    apply lookup_insert_eq. }
  split; [reflexivity|]. split; [reflexivity|]. apply Hrec.
Qed.

(** C10. With a backend that answers every call, the response of [list()]
    is determined by the enumeration alone: it holds, for every enumerated
    blob, the entry made of that blob's own name, the name with its first
    '-'-delimited segment removed, its content length, its content type
    (absent when the blob has none), its last-modified stamp and its URL.
    [list()] without the per-key [getProperties] fetch gives the same
    response and leaves the same world.  In any world, whenever the handler
    answers 200 its response is the one the handler without the fetch
    gives. *)
Theorem list_ignores_per_key_fetch (blobUrl : string -> string) w :
  faults w = [] ->
  Server.serve (Server.listRoute blobUrl) w
  = Server.serve (Spec.listRoute_without_fetch blobUrl) w
  /\ Server.serve (Server.listRoute blobUrl) w
     = (listed
          (map (fun blob : string * Blob =>
                  VObj [("name", VStr (fst blob));
                        ("originalName",
                         VStr (Js.join "-" (drop 1 (Js.split "-" (fst blob)))));
                        ("size", VNum (N.of_nat (length (content (snd blob)))));
                        ("contentType",
                         match contentType (snd blob) with
                         | Some t => VStr t
                         | None => VUndefined
                         end);
                        ("lastModified", VDate (lastModified (snd blob)));
                        ("url", VStr (blobUrl (fst blob)))])
               (map_to_list (blobs w))), w)
  /\ (forall key b, contentType b = None ->
        field "contentType" (Server.fileEntry blobUrl (key, b)) = Some VUndefined)
  /\ (forall w',
        statusCode (fst (Server.serve (Server.listRoute blobUrl) w')) = 200%N ->
        fst (Server.serve (Server.listRoute blobUrl) w')
        = fst (Server.serve (Spec.listRoute_without_fetch blobUrl) w')).
Proof.
  intros Hq. rewrite listRoute_quiet, listRoute_without_fetch_quiet by assumption.
  split; [reflexivity|]. split; [reflexivity|]. split.
  - intros key b Hb. cbn. now rewrite Hb.
  - apply listRoute_ok_any_world.
Qed.

(** ** Validation: type filter and size limit *)

(** C1 (amended). For a name without a path separator, the filter accepts
    exactly when the text after the last '.', lower-cased, is on the
    allow-list and that '.' is not the first character of the name;
    otherwise it rejects with an error whose message carries the extension
    [path.extname] found and the allow-list.  A name without '.' is
    rejected. *)
Theorem fileFilter_accepts_allowed_extension name :
  Js.contains "/" name = false ->
  (Multer.fileFilter name = (None, true)
     <-> Js.includes Spec.allowList (Js.toLowerCase (Spec.extensionOf name)) = true
         /\ Spec.leadingDotOnly name = false)
  /\ (Multer.fileFilter name <> (None, true) ->
        Multer.fileFilter name
        = (Some (Error ("File type " +:+ Js.toLowerCase (Path.extname name)
                          +:+ " is not allowed. Allowed types: "
                          +:+ ".txt, .pdf, .png, .jpg, .jpeg, .gif, .doc, .docx, .xls, .xlsx")),
           false))
  /\ (Js.contains "." name = false -> Multer.fileFilter name <> (None, true)).
Proof.
  intros Hslash. pose proof (filter_test name Hslash) as Htest.
  unfold Multer.fileFilter.
  destruct (Js.includes Multer.allowedTypes (Js.toLowerCase (Path.extname name))) eqn:Hinc.
  - symmetry in Htest. apply andb_true_iff in Htest as [Hal Hld].
    apply negb_true_iff in Hld. split; [|split].
    + split; auto.
    + intros Hne. now contradiction Hne.
    + intros Hdot. exfalso.
      unfold Spec.extensionOf in Hal. rewrite (split_no_sep _ _ Hdot) in Hal.
      discriminate.
  - split; [|split].
    + split; [discriminate|]. intros [Hal Hld]. rewrite Hal, Hld in Htest. discriminate.
    + intros _. reflexivity.
    + intros _. discriminate.
Qed.

(** A candidate under the field [file] whose name the filter refuses is
    answered by the catch-all branch of the error middleware, and nothing
    is written. *)
Lemma refused_type_response now p w err :
  Multer.part_field p = "file" -> Multer.part_filename p <> EmptyString ->
  Multer.fileFilter (Multer.part_filename p) = (Some (Error err), false) ->
  Server.serve (Server.postUpload now (Some p)) w
  = ({| statusCode := 500; headers := ∅;
        body := Some (JsonBody (Server.failure err)) |}, w).
Proof.
  intros Hfield Hname Hfilter. unfold Server.postUpload, Multer.single.
  apply String.eqb_neq in Hname. rewrite Hname, Hfield, Hfilter. reflexivity.
Qed.

(** C2 (amended). An upload whose body exceeds 10 MiB is never stored: the
    world is left as it was and the answer is an error, whatever the
    extension.  When the candidate is a named file under the field [file]
    that passes the type filter, the answer is 400 with the too-large
    message. *)
Theorem oversize_upload_is_rejected now p w :
  (Multer.fileSize < N.of_nat (length (Multer.part_data p)))%N ->
  let r := fst (Server.serve (Server.postUpload now (Some p)) w) in
  snd (Server.serve (Server.postUpload now (Some p)) w) = w
  /\ (statusCode r = 400%N \/ statusCode r = 500%N)
  /\ (Multer.part_field p = "file" -> Multer.part_filename p <> EmptyString ->
      Multer.fileFilter (Multer.part_filename p) = (None, true) ->
      r = tooLarge).
Proof.
  intros Hlt.
  assert ((Multer.fileSize <=? N.of_nat (length (Multer.part_data p)))%N = true) as Hsize
    by (apply N.leb_le; lia).
  cbv zeta. unfold Server.postUpload, Multer.single.
  destruct (String.eqb_spec (Multer.part_filename p) EmptyString) as [Hn|Hn].
  { split; [reflexivity|]. split; [left; reflexivity|]. intros _ Hne. contradiction. }
  destruct (String.eqb_spec (Multer.part_field p) "file") as [Hf|Hf]; cbn [negb].
  2:{ split; [reflexivity|]. split; [right; reflexivity|]. intros Hf'. contradiction. }
  unfold Multer.fileFilter.
  destruct (Js.includes Multer.allowedTypes _).
  - rewrite Hsize. split; [reflexivity|]. split; [left; reflexivity|]. reflexivity.
  - split; [reflexivity|]. split; [right; reflexivity|]. intros _ _ [=].
Qed.

(** C7. An upload named "malware.exe" is refused by the type filter, but
    the refusal is reported with status 500; nothing is written. *)
Theorem unsupported_type_answers_500 now ctype data w :
  Server.serve
    (Server.postUpload now
       (Some {| Multer.part_field := "file"; Multer.part_filename := "malware.exe";
                Multer.part_type := ctype; Multer.part_data := data |})) w
  = ({| statusCode := 500; headers := ∅;
        body := Some (JsonBody (Server.failure
          ("File type .exe is not allowed. Allowed types: "
           +:+ ".txt, .pdf, .png, .jpg, .jpeg, .gif, .doc, .docx, .xls, .xlsx"))) |}, w).
Proof. reflexivity. Qed.

(** C8. A request without a file is answered 400 with a body that has an
    [error] message but no [success] property. *)
Theorem no_file_response_lacks_success now w :
  let r := fst (Server.serve (Server.postUpload now None) w) in
  statusCode r = 400%N
  /\ body r = Some (JsonBody (VObj [("error", VStr "No file uploaded")]))
  /\ json_field "error" r = Some (VStr "No file uploaded")
  /\ json_field "success" r = None
  /\ snd (Server.serve (Server.postUpload now None) w) = w.
Proof. repeat split. Qed.

(** ** The shape of error responses *)

Section ErrorShape.

Variable blobUrl : string -> string.

Lemma failure_shaped code hdrs msg :
  errorShaped {| statusCode := code; headers := hdrs;
                 body := Some (JsonBody (Server.failure msg)) |}.
Proof. split; [reflexivity|]. now exists msg. Qed.

Ltac sdk_cases :=
  repeat (cbn [world res statusCode headers body blobs faults backendTime with_blobs
               fst snd negb setHeader res_status res_json pipe ret];
          match goal with
          | |- context [header_safe ?v] => destruct (header_safe v)
          | |- context [Sdk.next_fault ?w] =>
              destruct (Sdk.next_fault w) as [[?|] ?]
          | |- context [bool_decide (is_Some (?m !! ?k))] =>
              destruct (bool_decide (is_Some (m !! k)))
          | |- context [match ?m !! ?k with _ => _ end] => destruct (m !! k)
          end).

Lemma deleteRoute_error_shaped key w :
  let r := fst (Server.serve (Server.deleteRoute key) w) in
  statusCode r <> 200%N -> errorShaped r.
Proof.
  cbv zeta. rewrite serve_res.
  unfold Server.deleteRoute, try_catch, bind, Sdk.exists_, Sdk.delete, Sdk.call.
  sdk_cases; cbn; intros Hne; try (now contradiction Hne); apply failure_shaped.
Qed.

Lemma downloadRoute_error_shaped key w :
  let r := fst (Server.serve (Server.downloadRoute key) w) in
  statusCode r <> 200%N -> errorShaped r.
Proof.
  cbv zeta. rewrite serve_res.
  unfold Server.downloadRoute, try_catch, bind, Sdk.exists_, Sdk.getProperties,
    Sdk.download, Sdk.call, setHeader.
  sdk_cases; cbn; intros Hne; try (now contradiction Hne); apply failure_shaped.
Qed.

Lemma listRoute_error_shaped w :
  let r := fst (Server.serve (Server.listRoute blobUrl) w) in
  statusCode r <> 200%N -> errorShaped r.
Proof.
  cbv zeta. rewrite serve_res, listRoute_run.
  pose proof (call_res (fun m (_ : N) => inr (map_to_list m, m) : JsError + _)
                       {| world := w; res := res0 |}) as Hres.
  fold Sdk.listBlobsFlat in Hres.
  destruct (Sdk.listBlobsFlat {| world := w; res := res0 |}) as [[l|e] st1];
    cbn [snd res] in Hres; [|intros _; apply failure_shaped].
  destruct (for_each l _ st1) as [[ys|e] st2] eqn:E; [|intros _; apply failure_shaped].
  destruct (for_each_fetch_any _ _ _ _ _ E) as [Hr _].
  cbn. rewrite Hr, Hres. intros Hne. now contradiction Hne.
Qed.

(** Every error response of [POST /api/upload] has the common shape,
    except the one for a request without a file. *)
Lemma postUpload_error_shaped now req w :
  let r := fst (Server.serve (Server.postUpload now req) w) in
  statusCode r <> 200%N ->
  errorShaped r \/ Multer.single "file" req = inr None.
Proof.
  cbv zeta. rewrite serve_res. unfold Server.postUpload.
  destruct (Multer.single "file" req) as [[m|code m]|[f|]]; [| | |now right].
  - intros _. left. apply failure_shaped.
  - intros _. left. unfold Server.errorMiddleware.
    destruct (String.eqb code "LIMIT_FILE_SIZE"); apply failure_shaped.
  - unfold Server.uploadRoute, try_catch, bind, Sdk.upload, Sdk.call.
    sdk_cases; cbn; intros Hne; try (now contradiction Hne); left; apply failure_shaped.
Qed.

End ErrorShape.

(** ** Concrete runs *)

Example extname_html : Path.extname "index.html" = ".html".
Proof. reflexivity. Qed.
Example extname_last_dot : Path.extname "index.coffee.md" = ".md".
Proof. reflexivity. Qed.
Example extname_trailing_dot : Path.extname "index." = ".".
Proof. reflexivity. Qed.
Example extname_none : Path.extname "index" = EmptyString.
Proof. reflexivity. Qed.
Example extname_dotfile : Path.extname ".index" = EmptyString.
Proof. reflexivity. Qed.
Example extname_dotfile_md : Path.extname ".index.md" = ".md".
Proof. reflexivity. Qed.
Example extname_dotdot : Path.extname ".." = EmptyString.
Proof. reflexivity. Qed.
Example extname_directory : Path.extname "a.b/c" = EmptyString.
Proof. reflexivity. Qed.
Example split_invoice :
  Js.split "-" "1700000000000-invoice.pdf" = ["1700000000000"; "invoice.pdf"].
Proof. reflexivity. Qed.
Example keyOf_notes : Spec.keyOf 1700000000000 "notes.txt" = "1700000000000-notes.txt".
Proof. vm_compute. reflexivity. Qed.

Lemma notes_accepted : Spec.accepted Sample.notes.
Proof. repeat split; discriminate. Defined.

Lemma notes2_accepted : Spec.accepted Sample.notes2.
Proof. repeat split; discriminate. Defined.

Lemma elevenMiB_oversize :
  (Multer.fileSize < N.of_nat (length Sample.elevenMiB))%N.
Proof.
  unfold Sample.elevenMiB. rewrite length_replicate, N2Nat.id. reflexivity.
Defined.

(** C1, as stated, fails for the name ".txt": the text after its last '.'
    is on the allow-list, yet the filter rejects it, because [path.extname]
    gives a name that starts with its only '.' no extension. *)
Lemma dotfile_txt_is_rejected :
  ~ (Multer.fileFilter ".txt" = (None, true)
       <-> Js.includes Spec.allowList (Js.toLowerCase (Spec.extensionOf ".txt")) = true).
Proof. intros [_ H]. specialize (H eq_refl). discriminate. Qed.

Lemma fileFilter_accepts_allowed_extension_witness :
  Js.contains "/" "photo.JPG" = false /\ Multer.fileFilter "photo.JPG" = (None, true).
Proof.
  split; [reflexivity|].
  apply (fileFilter_accepts_allowed_extension "photo.JPG"); [reflexivity|].
  split; reflexivity.
Defined.

(** C2, as stated, fails for an 11 MiB upload named "malware.exe": the type
    filter runs before the body is read, so the answer is the type error
    and not the too-large one. *)
Lemma oversize_malware_is_not_too_large :
  (Multer.fileSize < N.of_nat (length (Multer.part_data Sample.bigMalware)))%N
  /\ fst (Server.serve (Server.postUpload 1700000000000 (Some Sample.bigMalware))
                       Sample.emptyWorld)
     = {| statusCode := 500; headers := ∅;
          body := Some (JsonBody (Server.failure
            ("File type .exe is not allowed. Allowed types: "
             +:+ ".txt, .pdf, .png, .jpg, .jpeg, .gif, .doc, .docx, .xls, .xlsx"))) |}
  /\ fst (Server.serve (Server.postUpload 1700000000000 (Some Sample.bigMalware))
                       Sample.emptyWorld) <> tooLarge.
Proof.
  split; [exact elevenMiB_oversize|].
  rewrite (refused_type_response 1700000000000 Sample.bigMalware Sample.emptyWorld
             ("File type .exe is not allowed. Allowed types: "
              +:+ ".txt, .pdf, .png, .jpg, .jpeg, .gif, .doc, .docx, .xls, .xlsx"));
    [|reflexivity|discriminate|reflexivity].
  split; [reflexivity | discriminate].
Qed.

Lemma oversize_upload_is_rejected_witness :
  (Multer.fileSize < N.of_nat (length (Multer.part_data Sample.bigPhoto)))%N
  /\ fst (Server.serve (Server.postUpload 1700000000000 (Some Sample.bigPhoto))
                       Sample.emptyWorld) = tooLarge.
Proof.
  split; [exact elevenMiB_oversize|].
  apply (oversize_upload_is_rejected 1700000000000 Sample.bigPhoto Sample.emptyWorld
           elevenMiB_oversize); [reflexivity | discriminate | reflexivity].
Defined.



Lemma remove_absent_is_not_found_witness :
  faults Sample.oneBlob = []
  /\ blobs Sample.oneBlob !! "1700000000000-notes.txt" = Some Sample.notesBlob
  /\ fst (Server.serve (Server.deleteRoute "1700000000000-notes.txt") Sample.oneBlob) = deleted
  /\ fst (Server.serve (Server.deleteRoute "1700000000000-notes.txt")
            (snd (Server.serve (Server.deleteRoute "1700000000000-notes.txt") Sample.oneBlob)))
     = notFound.
Proof.
  split; [reflexivity|]. split; [reflexivity|].
  destruct (remove_absent_is_not_found "1700000000000-notes.txt" Sample.oneBlob eq_refl)
    as (_ & Hpresent & _).
  destruct (Hpresent Sample.notesBlob eq_refl) as (Honce & Htwice & _).
  split; [now rewrite Honce | now rewrite Htwice].
Defined.

Lemma upload_key_is_timestamp_dash_name_witness :
  faults Sample.emptyWorld = [] /\ Spec.accepted Sample.notes
  /\ json_field "fileName"
       (fst (Server.serve (Server.postUpload 1700000000000 (Some Sample.notes))
                          Sample.emptyWorld))
     = Some (VStr (pretty 1700000000000%N +:+ "-" +:+ "notes.txt"))
  /\ blobs (snd (Server.serve (Server.postUpload 1700000000000 (Some Sample.notes2))
                   (snd (Server.serve (Server.postUpload 1700000000000 (Some Sample.notes))
                                      Sample.emptyWorld))))
     !! (pretty 1700000000000%N +:+ "-" +:+ "notes.txt")
     = Some (Spec.blobOf Sample.notes2 1700000000123).
Proof.
  split; [reflexivity|]. split; [exact notes_accepted|].
  destruct (upload_key_is_timestamp_dash_name 1700000000000 Sample.notes Sample.emptyWorld
              eq_refl notes_accepted) as (_ & Hkey & _ & _ & _ & _ & Hagain).
  split; [exact Hkey|].
  destruct (Hagain Sample.notes2 notes2_accepted eq_refl) as (_ & Hblob & _).
  exact Hblob.
Defined.

Lemma list_recovers_original_name_witness :
  faults Sample.oneBlob = []
  /\ exists files,
       fst (Server.serve (Server.listRoute Sample.url) Sample.oneBlob) = listed files
       /\ forall entry, entry ∈ files ->
            field "originalName" entry = Some (VStr "notes.txt").
Proof.
  split; [reflexivity|].
  destruct (list_recovers_original_name Sample.url Sample.oneBlob eq_refl)
    as (files & Hres & _ & Hall & _).
  exists files. split; [exact Hres|]. intros entry Hin.
  destruct (Hall entry Hin) as (key & [b Hb] & _ & _ & Hrec & _).
  unfold Sample.oneBlob in Hb. cbn [blobs] in Hb.
  apply lookup_singleton_Some in Hb as [<- _].
  apply (Hrec "1700000000000" "notes.txt"); reflexivity.
Defined.

(** C9, as stated, fails: no key produced by an upload loses its original
    name, and a name that starts with digits and a '-' is recovered too. *)
Lemma no_registered_key_loses_its_name :
  Spec.numericPrefixed "2024-report.pdf" = true
  /\ ~ (exists (now : N) (name : string) (b : Blob),
          Spec.numericPrefixed name = true
          /\ field "originalName"
               (Server.fileEntry Sample.url (pretty now +:+ "-" +:+ name, b))
             <> Some (VStr name)).
Proof.
  split; [reflexivity|]. intros (now & name & b & _ & Hne). apply Hne.
  cbn [field Server.fileEntry get_prop fst]. cbn [String.eqb Ascii.eqb Bool.eqb].
  pose proof (recover_keyOf now name) as Hrec. unfold Spec.keyOf in Hrec.
  now rewrite Hrec.
Qed.

Lemma registered_name_is_recovered_witness :
  faults Sample.emptyWorld = [] /\ Spec.accepted Sample.notes
  /\ field "originalName"
       (Server.fileEntry Sample.url (Spec.keyOf 1700000000000 "2024-report.pdf",
                                     Sample.notesBlob))
     = Some (VStr "2024-report.pdf").
Proof.
  split; [reflexivity|]. split; [exact notes_accepted|].
  destruct (registered_name_is_recovered Sample.url 1700000000000 Sample.notes
              Sample.emptyWorld eq_refl notes_accepted) as (Hrec & _).
  apply Hrec.
Defined.

Lemma list_ignores_per_key_fetch_witness :
  faults Sample.oneBlob = []
  /\ Server.serve (Server.listRoute Sample.url) Sample.oneBlob
     = Server.serve (Spec.listRoute_without_fetch Sample.url) Sample.oneBlob.
Proof.
  split; [reflexivity|].
  apply (list_ignores_per_key_fetch Sample.url Sample.oneBlob eq_refl).
Defined.

(** Where the per-key fetch does show: when the backend fails it, the
    listing fails although the enumeration went through. *)
Example failing_fetch_fails_listing :
  let w := {| blobs := {[ "1700000000000-notes.txt" := Sample.notesBlob ]};
              faults := [None; Some "socket hang up"];
              backendTime := 0 |} in
  statusCode (fst (Server.serve (Server.listRoute Sample.url) w)) = 500%N
  /\ statusCode (fst (Server.serve (Spec.listRoute_without_fetch Sample.url) w)) = 200%N.
Proof. vm_compute. split; reflexivity. Qed.

(** A key that no upload produced may lose a part of its name. *)
Example foreign_key_is_misparsed :
  field "originalName" (Server.fileEntry Sample.url ("2024-report.pdf", Sample.notesBlob))
  = Some (VStr "report.pdf").
Proof. reflexivity. Qed.

(** The scenario of the specification: upload "notes.txt", see it listed
    under its original name, download the same bytes, delete it, and find
    it gone from the listing and from download. *)
Example notes_scenario :
  let key := "1700000000000-notes.txt" in
  let up := Server.serve (Server.postUpload 1700000000000 (Some Sample.notes)) Sample.emptyWorld in
  let ls := Server.serve (Server.listRoute Sample.url) (snd up) in
  let dl := Server.serve (Server.downloadRoute key) (snd ls) in
  let rm := Server.serve (Server.deleteRoute key) (snd dl) in
  let ls' := Server.serve (Server.listRoute Sample.url) (snd rm) in
  let dl' := Server.serve (Server.downloadRoute key) (snd ls') in
  json_field "fileName" (fst up) = Some (VStr key)
  /\ json_field "size" (fst up) = Some (VNum 3)
  /\ json_field "files" (fst ls)
     = Some (VArr [VObj [("name", VStr key);
                         ("originalName", VStr "notes.txt");
                         ("size", VNum 3);
                         ("contentType", VStr "text/plain");
                         ("lastModified", VDate 1700000000123);
                         ("url", VStr "https://account.blob.core.windows.net/files/1700000000000-notes.txt")]])
  /\ body (fst dl) = Some (StreamBody [x68; x69; x0a])
  /\ fst rm = deleted
  /\ json_field "files" (fst ls') = Some (VArr [])
  /\ fst dl' = notFound.
Proof. vm_compute. repeat split. Qed.

(** * Further properties of the routes *)

(** ** Any backend: what a request can and cannot do to the container *)

Lemma next_fault_store w o w1 :
  Sdk.next_fault w = (o, w1) ->
  blobs w1 = blobs w /\ backendTime w1 = backendTime w.
Proof.
  unfold Sdk.next_fault. destruct (faults w); intros [= <- <-]; split; reflexivity.
Qed.

Ltac sdk_step :=
  cbn [world res statusCode headers body blobs faults backendTime with_blobs
       fst snd negb setHeader res_status res_json pipe ret];
  match goal with
  | H : blobs ?w1 = _ |- context [blobs ?w1] => rewrite H
  | H : backendTime ?w1 = _ |- context [backendTime ?w1] => rewrite H
  | H : ?m !! ?k = _ |- context [?m !! ?k] => rewrite H
  | |- context [header_safe ?v] => destruct (header_safe v)
  | |- context [bool_decide (is_Some (Some ?b))] =>
      rewrite (bool_decide_true (is_Some (Some b))) by eauto
  | |- context [bool_decide (is_Some (@None ?A))] =>
      rewrite (bool_decide_false (is_Some (@None A))) by apply is_Some_None
  | |- context [Sdk.next_fault ?w] =>
      let H := fresh "Hnf" in
      let Hb := fresh "Hb" in
      let Ht := fresh "Ht" in
      destruct (Sdk.next_fault w) as [[?|] ?] eqn:H;
      apply next_fault_store in H;
      cbn [blobs backendTime with_blobs] in H;
      destruct H as [Hb Ht];
      try rewrite Hb in *; try rewrite Ht in *
  | |- context [?m !! ?k] => destruct (m !! k) eqn:?
  end.

Ltac sdk_run := repeat sdk_step.

(** The multer instance hands a file to the route only when the candidate
    is an accepted one. *)
Lemma single_hands_over req f :
  Multer.single "file" req = inr (Some f) ->
  exists p, req = Some p /\ Spec.accepted p
            /\ f = {| Multer.originalname := Multer.part_filename p;
                      Multer.mimetype := Multer.part_type p;
                      Multer.buffer := Multer.part_data p;
                      Multer.size := N.of_nat (length (Multer.part_data p)) |}.
Proof.
  unfold Multer.single. destruct req as [p|]; [|discriminate].
  destruct (String.eqb_spec (Multer.part_filename p) EmptyString) as [|Hname];
    [discriminate|].
  destruct (String.eqb_spec (Multer.part_field p) "file") as [Hfield|];
    cbn [negb]; [|discriminate].
  destruct (Multer.fileFilter (Multer.part_filename p)) as [[e|] [|]] eqn:Hfilter;
    try discriminate.
  destruct (N.leb_spec Multer.fileSize (N.of_nat (length (Multer.part_data p))))
    as [|Hsize]; [discriminate|].
  intros [= <-]. exists p. repeat split; assumption.
Qed.

(** X1. Whatever the request and whatever the backend does, [POST
    /api/upload] either answers with the success response of an accepted
    candidate and stores exactly that candidate under its timestamp key,
    or answers with another status and leaves the container as it was. *)
Theorem upload_stores_only_accepted_files now req w :
  let out := Server.serve (Server.postUpload now req) w in
  (exists p, req = Some p /\ Spec.accepted p
             /\ fst out = uploaded (Spec.keyOf now (Multer.part_filename p)) p
             /\ blobs (snd out)
                = <[Spec.keyOf now (Multer.part_filename p)
                    := Spec.blobOf p (backendTime w)]> (blobs w))
  \/ (statusCode (fst out) <> 200%N /\ blobs (snd out) = blobs w).
Proof.
  cbv zeta. unfold Server.serve, Server.postUpload.
  destruct (Multer.single "file" req) as [[m|code m]|[f|]] eqn:Hsingle.
  - right. split; [discriminate | reflexivity].
  - right. unfold Server.errorMiddleware.
    destruct (String.eqb code "LIMIT_FILE_SIZE"); split; (discriminate || reflexivity).
  - destruct (single_hands_over _ _ Hsingle) as (p & -> & Hacc & ->).
    unfold Server.uploadRoute, try_catch, bind, Sdk.upload, Sdk.call.
    cbn [Multer.originalname Multer.buffer Multer.mimetype Multer.size].
    sdk_run.
    + right. split; [discriminate | reflexivity].
    + left. exists p. split; [reflexivity|]. split; [exact Hacc|].
      split; reflexivity.
  - right. split; [discriminate | reflexivity].
Qed.

(** X2. Whatever the backend does, [DELETE /api/files/:fileName] answers
    success exactly when it removed the blob of that key, which then was
    present; with any other answer the container is as it was.  No other
    key is ever touched. *)
Theorem delete_removes_only_its_key key w :
  let out := Server.serve (Server.deleteRoute key) w in
  ((fst out = deleted /\ is_Some (blobs w !! key)
    /\ blobs (snd out) = delete key (blobs w))
   \/ (statusCode (fst out) <> 200%N /\ blobs (snd out) = blobs w))
  /\ forall k, k <> key -> blobs (snd out) !! k = blobs w !! k.
Proof.
  cbv zeta.
  assert ((fst (Server.serve (Server.deleteRoute key) w) = deleted
           /\ is_Some (blobs w !! key)
           /\ blobs (snd (Server.serve (Server.deleteRoute key) w)) = delete key (blobs w))
          \/ (statusCode (fst (Server.serve (Server.deleteRoute key) w)) <> 200%N
              /\ blobs (snd (Server.serve (Server.deleteRoute key) w)) = blobs w)) as Hcases.
  { unfold Server.serve, Server.deleteRoute, try_catch, bind,
      Sdk.exists_, Sdk.delete, Sdk.call.
    sdk_run; try (right; split; [discriminate | reflexivity]).
    left. split; [reflexivity|]. split; [eauto | reflexivity]. }
  split; [exact Hcases|]. intros k Hk.
  destruct Hcases as [(_ & _ & ->) | (_ & ->)]; [|reflexivity].
  now apply lookup_delete_ne.
Qed.

Section ReadRoutes.

Variable blobUrl : string -> string.

Lemma getProperties_store name st :
  blobs (world (snd (Sdk.getProperties name st))) = blobs (world st)
  /\ res (snd (Sdk.getProperties name st)) = res st.
Proof.
  unfold Sdk.getProperties, Sdk.call. sdk_run; split; reflexivity.
Qed.

Lemma for_each_fetch_store (l : list (string * Blob)) st :
  blobs (world (snd (for_each l (fun blob => bind (Sdk.getProperties (fst blob))
                                    (fun _ => ret (Server.fileEntry blobUrl blob))) st)))
  = blobs (world st).
Proof.
  revert st. induction l as [|[k b] l IH]; intros st; [reflexivity|].
  cbn [for_each]. unfold bind at 1 2. cbn [fst].
  destruct (getProperties_store k st) as [Hstore _].
  destruct (Sdk.getProperties k st) as [[b'|e] st1]; cbn [snd] in *; [|assumption].
  unfold ret at 1. unfold bind at 1.
  specialize (IH st1).
  destruct (for_each l _ st1) as [[ys|e] st2]; cbn [snd ret] in *; congruence.
Qed.

Lemma listBlobsFlat_store st :
  blobs (world (snd (Sdk.listBlobsFlat st))) = blobs (world st)
  /\ res (snd (Sdk.listBlobsFlat st)) = res st
  /\ forall l, fst (Sdk.listBlobsFlat st) = Returned l -> l = map_to_list (blobs (world st)).
Proof.
  unfold Sdk.listBlobsFlat, Sdk.call. sdk_run; repeat split; try discriminate.
  now intros l [= <-].
Qed.

(** X3. [GET /api/files] answers all or nothing: whatever the backend
    does, the response is either the listing of every blob of the
    container or a 500 carrying the message of the failure, never a part
    of the listing; and the container is left as it was. *)
Theorem listing_is_all_or_nothing w :
  let out := Server.serve (Server.listRoute blobUrl) w in
  (fst out = listed (map (Server.fileEntry blobUrl) (map_to_list (blobs w)))
   \/ exists msg,
       fst out = {| statusCode := 500; headers := ∅;
                    body := Some (JsonBody (Server.failure
                                    ("Failed to list files: " +:+ msg))) |})
  /\ blobs (snd out) = blobs w.
Proof.
  cbv zeta. unfold Server.serve. rewrite listRoute_run.
  destruct (listBlobsFlat_store {| world := w; res := res0 |}) as (Hstore & Hres & Hlist).
  destruct (Sdk.listBlobsFlat {| world := w; res := res0 |}) as [[l|e] st1];
    cbn [fst snd world res] in *.
  - rewrite (Hlist l eq_refl).
    pose proof (for_each_fetch_store (map_to_list (blobs w)) st1) as Hstore2.
    destruct (for_each _ _ st1) as [[ys|e] st2] eqn:E; cbn [snd] in Hstore2.
    + destruct (for_each_fetch_any _ _ _ _ _ E) as [Hr Hys].
      rewrite (Hys ys eq_refl). cbn. rewrite Hr, Hres. split; [left; reflexivity | congruence].
    + destruct (for_each_fetch_any _ _ _ _ _ E) as [Hr _].
      cbn. rewrite Hr, Hres. split; [right; eexists; reflexivity | congruence].
  - cbn. rewrite Hres. split; [right; eexists; reflexivity | assumption].
Qed.

(** X4. Whatever the backend does, [GET /api/download/:fileName] leaves the
    container as it was. *)
Theorem download_never_writes key w :
  blobs (snd (Server.serve (Server.downloadRoute key) w)) = blobs w.
Proof.
  unfold Server.serve, Server.downloadRoute, try_catch, bind,
    Sdk.exists_, Sdk.getProperties, Sdk.download, Sdk.call, setHeader.
  sdk_run; reflexivity.
Qed.

End ReadRoutes.

(** ** A failing backend *)

(** X5. When the first call a route makes into the storage SDK fails, the
    route answers 500 with its own prefix followed by the message of the
    failure, and the container is as it was: a failed upload leaves no
    blob, a failed delete removes none. *)
Theorem backend_failure_is_reported (blobUrl : string -> string) now p key w msg rest :
  faults w = Some msg :: rest -> Spec.accepted p ->
  Server.serve (Server.postUpload now (Some p)) w
  = (serverError ("Upload failed: " +:+ msg), after_fault rest w)
  /\ Server.serve (Server.listRoute blobUrl) w
     = (serverError ("Failed to list files: " +:+ msg), after_fault rest w)
  /\ Server.serve (Server.downloadRoute key) w
     = (serverError ("Download failed: " +:+ msg), after_fault rest w)
  /\ Server.serve (Server.deleteRoute key) w
     = (serverError ("Delete failed: " +:+ msg), after_fault rest w).
Proof.
  intros Hf Hp.
  assert (Sdk.next_fault w = (Some msg, after_fault rest w)) as Hnf
    by (unfold Sdk.next_fault; now rewrite Hf).
  repeat split.
  - unfold Server.serve, Server.postUpload. rewrite single_accepted by assumption.
    unfold Server.uploadRoute, try_catch, bind, Sdk.upload, Sdk.call.
    cbn [world]. rewrite Hnf. reflexivity.
  - unfold Server.serve. rewrite listRoute_run.
    unfold Sdk.listBlobsFlat, Sdk.call. cbn [world]. rewrite Hnf. reflexivity.
  - unfold Server.serve, Server.downloadRoute, try_catch, bind, Sdk.exists_, Sdk.call.
    cbn [world]. rewrite Hnf. reflexivity.
  - unfold Server.serve, Server.deleteRoute, try_catch, bind, Sdk.exists_, Sdk.call.
    cbn [world]. rewrite Hnf. reflexivity.
Qed.

(** X6. When the blob exists, its key and content type are valid header
    values and its properties were read, but the download call then
    fails, the 500 response still carries the [Content-Disposition:
    attachment] header that was set for the file. *)
Theorem failed_download_keeps_attachment_header key b w msg rest :
  faults w = None :: None :: Some msg :: rest -> blobs w !! key = Some b ->
  header_safe key = true -> header_safe (typeOf b) = true ->
  let r := fst (Server.serve (Server.downloadRoute key) w) in
  statusCode r = 500%N
  /\ body r = Some (JsonBody (Server.failure ("Download failed: " +:+ msg)))
  /\ headers r !! "Content-Disposition"
     = Some ("attachment; filename=" +:+ Server.dquote +:+ key +:+ Server.dquote)
  /\ snd (Server.serve (Server.downloadRoute key) w) = after_fault rest w.
Proof.
  intros Hf Hb Hkey Htype. cbv zeta.
  assert (Server.downloadRoute key {| world := w; res := res0 |}
          = (Returned tt,
             {| world := after_fault rest w;
                res := {| statusCode := 500;
                          headers :=
                            <["Content-Length" := pretty (contentLength b)]>
                              (<["Content-Type" := typeOf b]>
                                 (<["Content-Disposition" := dispositionOf key]> ∅));
                          body := Some (JsonBody (Server.failure
                                                    ("Download failed: " +:+ msg))) |} |}))
    as Hrun.
  { unfold Server.downloadRoute, try_catch, bind,
      Sdk.exists_, Sdk.getProperties, Sdk.download, Sdk.call, Sdk.next_fault.
    cbn [world]. rewrite Hf. cbn [blobs faults backendTime with_blobs]. rewrite Hb.
    rewrite bool_decide_true by eauto.
    cbn [negb world res blobs faults backendTime with_blobs]. rewrite Hb.
    unfold setHeader. fold (dispositionOf key). fold (typeOf b).
    rewrite dispositionOf_safe, Hkey, Htype, pretty_safe.
    reflexivity. }
  unfold Server.serve. rewrite Hrun. cbn [fst snd res world statusCode body headers].
  split; [reflexivity|]. split; [reflexivity|]. split; [|reflexivity].
  now rewrite !lookup_insert_ne, lookup_insert_eq by discriminate.
Qed.

(** X7. Every response of the list, download and delete routes whose
    status is not 200 has the body [{success: false, error: <message>}],
    whatever the backend does; so has every such response of the upload
    route, except when the request carries no file. *)
Theorem error_responses_share_shape (blobUrl : string -> string) key w :
  (statusCode (fst (Server.serve (Server.listRoute blobUrl) w)) <> 200%N ->
   errorShaped (fst (Server.serve (Server.listRoute blobUrl) w)))
  /\ (statusCode (fst (Server.serve (Server.downloadRoute key) w)) <> 200%N ->
      errorShaped (fst (Server.serve (Server.downloadRoute key) w)))
  /\ (statusCode (fst (Server.serve (Server.deleteRoute key) w)) <> 200%N ->
      errorShaped (fst (Server.serve (Server.deleteRoute key) w)))
  /\ (forall now req,
        statusCode (fst (Server.serve (Server.postUpload now req) w)) <> 200%N ->
        errorShaped (fst (Server.serve (Server.postUpload now req) w))
        \/ Multer.single "file" req = inr None).
Proof.
  split; [apply listRoute_error_shaped|].
  split; [apply downloadRoute_error_shaped|].
  split; [apply deleteRoute_error_shaped|].
  intros now req. apply postUpload_error_shaped.
Qed.

(** ** Keys, listings and how the routes compose *)

(** Two storage keys are equal only when both the timestamp and the
    original name are. *)
Lemma keyOf_inj n1 s1 n2 s2 :
  Spec.keyOf n1 s1 = Spec.keyOf n2 s2 -> n1 = n2 /\ s1 = s2.
Proof.
  unfold Spec.keyOf. intros H. apply (f_equal (Js.split "-")) in H.
  change ("-" +:+ s1) with (String "-" s1) in H.
  change ("-" +:+ s2) with (String "-" s2) in H.
  rewrite !split_first_segment in H by apply pretty_no_dash.
  injection H as Hn Hs. split; [now apply (inj pretty)|].
  rewrite <- (join_split "-" s1), <- (join_split "-" s2). now rewrite Hs.
Qed.

(** X8. Two accepted uploads that differ in their millisecond or in their
    file name get different keys, and both blobs are in the container
    afterwards: the second upload does not replace the first. *)
Theorem distinct_uploads_do_not_collide now1 now2 p q w :
  faults w = [] -> Spec.accepted p -> Spec.accepted q ->
  now1 <> now2 \/ Multer.part_filename p <> Multer.part_filename q ->
  let w1 := snd (Server.serve (Server.postUpload now1 (Some p)) w) in
  let w2 := snd (Server.serve (Server.postUpload now2 (Some q)) w1) in
  Spec.keyOf now1 (Multer.part_filename p) <> Spec.keyOf now2 (Multer.part_filename q)
  /\ blobs w2 !! Spec.keyOf now1 (Multer.part_filename p)
     = Some (Spec.blobOf p (backendTime w))
  /\ blobs w2 !! Spec.keyOf now2 (Multer.part_filename q)
     = Some (Spec.blobOf q (backendTime w)).
Proof.
  intros Hq Hp Hq' Hdiff. cbv zeta.
  assert (Spec.keyOf now1 (Multer.part_filename p)
          <> Spec.keyOf now2 (Multer.part_filename q)) as Hne.
  { intros [Hn Hs]%keyOf_inj. destruct Hdiff; contradiction. }
  rewrite (postUpload_accepted now1 p w) by assumption. cbn [snd].
  rewrite postUpload_accepted by (assumption || exact Hq).
  cbn [snd with_blobs blobs backendTime].
  split; [exact Hne|]. split.
  - rewrite lookup_insert_ne by congruence. apply lookup_insert_eq.
  - apply lookup_insert_eq.
Qed.

Lemma entry_name (blobUrl : string -> string) k b :
  field "name" (Server.fileEntry blobUrl (k, b)) = Some (VStr k).
Proof. reflexivity. Qed.

(** X9. With a backend that answers, the listing has one entry per blob
    of the container, and a key names an entry exactly when it is stored. *)
Theorem listed_names_are_the_stored_keys (blobUrl : string -> string) w :
  faults w = [] ->
  exists files,
    fst (Server.serve (Server.listRoute blobUrl) w) = listed files
    /\ length files = size (blobs w)
    /\ forall key,
         (exists entry, entry ∈ files /\ field "name" entry = Some (VStr key))
         <-> is_Some (blobs w !! key).
Proof.
  intros Hq. rewrite listRoute_quiet by assumption.
  eexists. split; [reflexivity|]. split.
  - rewrite length_map. apply length_map_to_list.
  - intros key. split.
    + intros (entry & Hin & Hname).
      apply list_elem_of_In, in_map_iff in Hin as ([k b] & <- & Hkb).
      rewrite entry_name in Hname. injection Hname as ->.
      apply list_elem_of_In, elem_of_map_to_list in Hkb. eauto.
    + intros [b Hb]. exists (Server.fileEntry blobUrl (key, b)). split; [|reflexivity].
      apply list_elem_of_In, in_map, list_elem_of_In, elem_of_map_to_list, Hb.
Qed.

(** X10. After a successful delete the key is gone from the listing and
    from download, and every other blob is listed as before. *)
Theorem deleted_file_disappears (blobUrl : string -> string) key b w :
  faults w = [] -> blobs w !! key = Some b ->
  let w1 := snd (Server.serve (Server.deleteRoute key) w) in
  exists files,
    fst (Server.serve (Server.listRoute blobUrl) w1) = listed files
    /\ (forall entry, entry ∈ files -> field "name" entry <> Some (VStr key))
    /\ (forall k b', k <> key -> blobs w !! k = Some b' ->
          Server.fileEntry blobUrl (k, b') ∈ files)
    /\ fst (Server.serve (Server.downloadRoute key) w1) = notFound.
Proof.
  intros Hq Hb. cbv zeta. rewrite (deleteRoute_present key b) by assumption.
  cbn [snd]. rewrite listRoute_quiet by exact Hq.
  rewrite downloadRoute_absent; [|exact Hq|apply lookup_delete_eq].
  cbn [fst with_blobs blobs]. eexists. split; [reflexivity|]. split; [|split].
  - intros entry Hin Hname.
    apply list_elem_of_In, in_map_iff in Hin as ([k b'] & <- & Hkb).
    rewrite entry_name in Hname. injection Hname as ->.
    apply list_elem_of_In, elem_of_map_to_list in Hkb.
    rewrite lookup_delete_eq in Hkb. discriminate.
  - intros k b' Hk Hkb.
    apply list_elem_of_In, in_map, list_elem_of_In, elem_of_map_to_list.
    now rewrite lookup_delete_ne by congruence.
  - reflexivity.
Qed.


(** ** The type filter and the case of the name *)

Section CaseFacts.

Import Path.

Lemma lower_char_dot_eqb c : Ascii.eqb (Js.lower_char c) "." = Ascii.eqb c ".".
Proof. destruct c as [[] [] [] [] [] [] [] []]; reflexivity. Qed.

Lemma lower_char_slash_eqb c : Ascii.eqb (Js.lower_char c) "/" = Ascii.eqb c "/".
Proof. destruct c as [[] [] [] [] [] [] [] []]; reflexivity. Qed.

Lemma lower_char_idem c : Js.lower_char (Js.lower_char c) = Js.lower_char c.
Proof. destruct c as [[] [] [] [] [] [] [] []]; reflexivity. Qed.

Lemma toLowerCase_idem s : Js.toLowerCase (Js.toLowerCase s) = Js.toLowerCase s.
Proof.
  induction s as [|a s IH]; [reflexivity|]. simpl. now rewrite lower_char_idem, IH.
Qed.

Lemma chars_toLowerCase s : Js.chars (Js.toLowerCase s) = map Js.lower_char (Js.chars s).
Proof. induction s as [|a s IH]; [reflexivity|]. simpl. now rewrite IH. Qed.

Lemma of_chars_map_lower l :
  Js.of_chars (map Js.lower_char l) = Js.toLowerCase (Js.of_chars l).
Proof. induction l as [|a l IH]; [reflexivity|]. simpl. now rewrite IH. Qed.

Lemma strlen_toLowerCase s : Js.strlen (Js.toLowerCase s) = Js.strlen s.
Proof.
  unfold Js.strlen. rewrite <- !chars_length, chars_toLowerCase, length_map. reflexivity.
Qed.

Lemma see_char_lower c i st : see_char (Js.lower_char c) i st = see_char c i st.
Proof. unfold see_char. now rewrite lower_char_dot_eqb. Qed.

Lemma scan_map_lower l i st : scan (map Js.lower_char l) i st = scan l i st.
Proof.
  revert i st. induction l as [|c l IH]; intros i st; [reflexivity|].
  simpl. rewrite lower_char_slash_eqb, see_char_lower, !IH. reflexivity.
Qed.

(** Lower-casing commutes with taking the extension. *)
Lemma extname_toLowerCase s :
  extname (Js.toLowerCase s) = Js.toLowerCase (extname s).
Proof.
  unfold extname.
  rewrite chars_toLowerCase, <- map_rev, scan_map_lower, strlen_toLowerCase.
  destruct (_ || _); [reflexivity|].
  unfold Js.slice. rewrite chars_toLowerCase, skipn_map, firstn_map.
  apply of_chars_map_lower.
Qed.

End CaseFacts.

(** X12. The type filter never looks at the case of the name: for every
    name made of code units below 0x100, the name and its lower-cased form
    get the same verdict and the same error message. *)
Theorem fileFilter_ignores_case name :
  Multer.fileFilter (Js.toLowerCase name) = Multer.fileFilter name.
Proof.
  unfold Multer.fileFilter. now rewrite extname_toLowerCase, toLowerCase_idem.
Qed.

(** ** The browser script *)

Section ClientFacts.

Lemma last_segment_stem_ext stem ext :
  Js.contains "." ext = false ->
  JsString.pop (Js.split "." (stem +:+ String "." ext)) = ext.
Proof.
  intros Hext. unfold JsString.pop. rewrite split_stem_ext by assumption.
  now rewrite last_snoc.
Qed.

(** With a '.' in the name, the text after the last '.' is the last
    segment. *)
Lemma extensionOf_pop name :
  Spec.extensionOf name
  = if Js.contains "." name then JsString.pop (Js.split "." name) else EmptyString.
Proof.
  destruct (split_last_segment "." name)
    as [[Hno Hsplit] | (stem & ext & -> & Hno & _)].
  - rewrite Hno. unfold Spec.extensionOf. now rewrite Hsplit.
  - rewrite extensionOf_stem_ext, last_segment_stem_ext by assumption.
    rewrite contains_append. simpl. now rewrite orb_true_r.
Qed.

Lemma client_type_test name :
  Js.includes Client.allowedTypes
    ("." +:+ Js.toLowerCase (JsString.pop (Js.split "." name)))
  = Js.includes Spec.allowList (Js.toLowerCase (JsString.pop (Js.split "." name))).
Proof.
  change Client.allowedTypes with (map (String ".") Spec.allowList).
  apply includes_dotted.
Qed.

End ClientFacts.

(** X13. For a name without a path separator the check in the page never
    refuses a file the server takes: if the server's filter accepts the
    name and the size is within the limit, [uploadFile] goes on to post
    it.  A name the page lets through and the server's filter refuses has
    no '.' at all, or its only '.' in front. *)
Theorem client_check_is_weaker_than_server name size :
  Js.contains "/" name = false ->
  (Multer.fileFilter name = (None, true) -> (size <= Multer.fileSize)%N ->
   Client.uploadFile name size = Client.Posted)
  /\ (Client.uploadFile name size = Client.Posted ->
      Multer.fileFilter name <> (None, true) ->
      Js.contains "." name = false \/ Spec.leadingDotOnly name = true).
Proof.
  intros Hslash. pose proof (filter_test name Hslash) as Htest.
  rewrite extensionOf_pop in Htest.
  unfold Client.uploadFile, Multer.fileFilter. rewrite client_type_test.
  destruct (Js.includes Multer.allowedTypes (Js.toLowerCase (Path.extname name))).
  - split; [|intros _ Hne; now contradiction Hne].
    intros _ Hsize. symmetry in Htest. apply andb_true_iff in Htest as [Hal _].
    destruct (Js.contains "." name); [|discriminate].
    rewrite Hal. cbn [negb]. apply N.ltb_ge in Hsize.
    unfold Multer.fileSize in Hsize. now rewrite Hsize.
  - split; [discriminate|]. intros Hposted _.
    destruct (Js.contains "." name); [right|now left].
    destruct (Js.includes Spec.allowList _); [|discriminate].
    cbn [andb] in Htest. now apply negb_false_iff.
Qed.

Section TruncateFacts.

Lemma append_assoc s t u : (s +:+ t) +:+ u = s +:+ (t +:+ u).
Proof.
  induction s as [|a s IH]; [reflexivity|].
  now rewrite !append_cons, IH.
Qed.

Lemma strlen_append s t : Js.strlen (s +:+ t) = Js.strlen s + Js.strlen t.
Proof.
  unfold Js.strlen. rewrite <- !chars_length, chars_append, length_app. lia.
Qed.

Lemma lastIndexOf_from_absent c s i found :
  Js.contains c s = false -> JsString.lastIndexOf_from c s i found = found.
Proof.
  revert i found. induction s as [|a s IH]; intros i found; [reflexivity|].
  simpl. intros [Ha Hs]%orb_false_iff. rewrite Ha. now apply IH.
Qed.

Lemma lastIndexOf_from_stem_ext c stem ext i found :
  Js.contains c ext = false ->
  JsString.lastIndexOf_from c (stem +:+ String c ext) i found = i + Js.strlen stem.
Proof.
  intros Hext. revert i found. induction stem as [|a stem IH]; intros i found.
  - rewrite append_nil_l. simpl. rewrite Ascii.eqb_refl.
    rewrite lastIndexOf_from_absent by assumption. unfold Js.strlen.
    cbn [String.length]. lia.
  - rewrite append_cons. simpl. rewrite IH. unfold Js.strlen.
    cbn [String.length]. lia.
Qed.

Lemma substring0_prefix s t : JsString.substring0 (s +:+ t) (Js.strlen s) = s.
Proof.
  unfold JsString.substring0, Js.strlen.
  rewrite Nat2Z.id, chars_append, <- chars_length, take_app_length.
  apply of_chars_chars.
Qed.

Lemma strlen_substring0 s e :
  Js.strlen (JsString.substring0 s e) = Z.min (Js.strlen s) (Z.max 0 e).
Proof.
  unfold JsString.substring0, Js.strlen, Js.of_chars.
  rewrite <- (chars_length (string_of_list_ascii _)).
  unfold Js.chars. rewrite list_ascii_of_string_of_list_ascii, length_take.
  rewrite <- chars_length. unfold Js.chars. lia.
Qed.

End TruncateFacts.

(** X14. [truncateFileName] on a name [stem.ext] longer than [maxLength]:
    the result is a prefix of the stem, three dots, and the unchanged
    [.ext]; it has exactly [maxLength] characters when the extension
    leaves room ([ext] and four more characters fit), and [ext] plus four
    characters otherwise.  A name that fits is returned as it is. *)
Theorem truncateFileName_keeps_extension stem ext maxLength :
  Js.contains "." ext = false ->
  maxLength < Js.strlen (stem +:+ String "." ext) ->
  let result := Client.truncateFileName (stem +:+ String "." ext) maxLength in
  result = JsString.substring0 stem (maxLength - Js.strlen ext - 4)
           +:+ "..." +:+ "." +:+ ext
  /\ Js.strlen result = Z.max maxLength (Js.strlen ext + 4)
  /\ (forall fits, Js.strlen fits <= maxLength ->
        Client.truncateFileName fits maxLength = fits).
Proof.
  intros Hext Hlong. cbv zeta.
  assert (Client.truncateFileName (stem +:+ String "." ext) maxLength
          = JsString.substring0 stem (maxLength - Js.strlen ext - 4)
            +:+ "..." +:+ "." +:+ ext) as Hres.
  { unfold Client.truncateFileName.
    destruct (Z.leb_spec (Js.strlen (stem +:+ String "." ext)) maxLength); [lia|].
    rewrite last_segment_stem_ext by assumption.
    unfold JsString.lastIndexOf.
    rewrite lastIndexOf_from_stem_ext by assumption.
    rewrite Z.add_0_l, substring0_prefix. apply append_assoc. }
  split; [exact Hres|]. split.
  - rewrite Hres, !strlen_append, strlen_substring0.
    rewrite strlen_append in Hlong.
    change (Js.strlen (String "." ext)) with (Z.of_nat (S (String.length ext))) in Hlong.
    change (Js.strlen "...") with 3. change (Js.strlen ".") with 1.
    unfold Js.strlen in *. lia.
  - intros fits Hfits. unfold Client.truncateFileName.
    destruct (Z.leb_spec (Js.strlen fits) maxLength); [reflexivity | lia].
Qed.

(** X15. [truncateFileName] on a name without '.' that is longer than
    [maxLength] does not shorten it: the result is the whole name with four
    dots in front. *)
Theorem truncateFileName_grows_dotless_names name maxLength :
  Js.contains "." name = false ->
  maxLength < Js.strlen name ->
  Client.truncateFileName name maxLength = "...." +:+ name
  /\ Js.strlen (Client.truncateFileName name maxLength) = Js.strlen name + 4.
Proof.
  intros Hdot Hlong.
  assert (Client.truncateFileName name maxLength = "...." +:+ name) as Hres.
  { unfold Client.truncateFileName.
    destruct (Z.leb_spec (Js.strlen name) maxLength); [lia|].
    rewrite split_no_sep by assumption.
    unfold JsString.lastIndexOf. rewrite lastIndexOf_from_absent by assumption.
    unfold JsString.substring0 at 2. change (take (Z.to_nat (-1)) (Js.chars name)) with (@nil ascii).
    unfold JsString.substring0. change (Js.chars (Js.of_chars [])) with (@nil ascii).
    rewrite take_nil. reflexivity. }
  split; [exact Hres|]. rewrite Hres, strlen_append.
  change (Js.strlen "....") with 4. lia.
Qed.

Section IconFacts.

Lemma prefix_append n b : String.prefix n (n +:+ b) = true.
Proof.
  induction n as [|a n IH]; [destruct b; reflexivity|].
  rewrite append_cons. simpl. destruct (ascii_dec a a); [exact IH | contradiction].
Qed.

Lemma includes_unfold s needle :
  JsString.includes s needle
  = String.prefix needle s
    || match s with
       | EmptyString => false
       | String _ s' => JsString.includes s' needle
       end.
Proof. destruct s; reflexivity. Qed.

(** A string includes each of its infixes. *)
Lemma includes_infix a n b : JsString.includes (a +:+ n +:+ b) n = true.
Proof.
  induction a as [|c a IH].
  - rewrite append_nil_l, includes_unfold, prefix_append. reflexivity.
  - rewrite append_cons, includes_unfold, IH. apply orb_true_r.
Qed.

End IconFacts.

(** X16. A content type that has "document" in it gets the image, the PDF
    or the word-processor icon, never the spreadsheet icon: the test for
    "document" comes before the test for "spreadsheet", so the
    office-document types of spreadsheets are shown as word-processor
    files. *)
Theorem document_types_never_get_spreadsheet_icon a b :
  let icon := Client.getFileIcon (Some (a +:+ "document" +:+ b)) in
  icon = "fa-file-image" \/ icon = "fa-file-pdf" \/ icon = "fa-file-word".
Proof.
  cbv zeta. pose proof (includes_infix a "document" b) as Hinc.
  destruct (a +:+ "document" +:+ b) as [|c ct] eqn:E; [discriminate|].
  unfold Client.getFileIcon.
  destruct (JsString.startsWith (String c ct) "image/"); [now left|].
  destruct (JsString.includes (String c ct) "pdf"); [now right; left|].
  rewrite Hinc, orb_true_r. now right; right.
Qed.

(** X17. A candidate that is not an accepted one is answered without any
    call to the storage backend: the world, fault schedule included, is
    exactly as before, and the answer is not a success. *)
Theorem refused_upload_never_reaches_backend now p w :
  ~ Spec.accepted p ->
  snd (Server.serve (Server.postUpload now (Some p)) w) = w
  /\ statusCode (fst (Server.serve (Server.postUpload now (Some p)) w)) <> 200%N.
Proof.
  intros Hno. unfold Server.serve, Server.postUpload.
  destruct (Multer.single "file" (Some p)) as [[m|code m]|[f|]] eqn:Hsingle.
  - split; [reflexivity | discriminate].
  - unfold Server.errorMiddleware.
    destruct (String.eqb code "LIMIT_FILE_SIZE"); split; (reflexivity || discriminate).
  - destruct (single_hands_over _ _ Hsingle) as (p' & [= <-] & Hacc & _).
    contradiction.
  - split; [reflexivity | discriminate].
Qed.

(** ** Concrete runs of the further properties *)

Lemma report_accepted : Spec.accepted Sample.report.
Proof. repeat split; discriminate. Defined.

Lemma malware_not_accepted :
  ~ Spec.accepted {| Multer.part_field := "file"; Multer.part_filename := "malware.exe";
                     Multer.part_type := "application/octet-stream";
                     Multer.part_data := [x4d; x5a] |}.
Proof. intros (_ & _ & Hfilter & _). vm_compute in Hfilter. discriminate Hfilter. Defined.

Lemma backend_failure_is_reported_witness :
  faults Sample.failing = [Some "socket hang up"] /\ Spec.accepted Sample.notes
  /\ fst (Server.serve (Server.deleteRoute "1700000000000-notes.txt") Sample.failing)
     = serverError "Delete failed: socket hang up"
  /\ blobs (snd (Server.serve (Server.deleteRoute "1700000000000-notes.txt") Sample.failing))
     = blobs Sample.failing.
Proof.
  split; [reflexivity|]. split; [exact notes_accepted|].
  destruct (backend_failure_is_reported Sample.url 1700000000000 Sample.notes
              "1700000000000-notes.txt" Sample.failing "socket hang up" []
              eq_refl notes_accepted) as (_ & _ & _ & Hdel).
  rewrite Hdel. split; reflexivity.
Defined.

Lemma failed_download_keeps_attachment_header_witness :
  faults Sample.failingThird = [None; None; Some "socket hang up"]
  /\ blobs Sample.failingThird !! "1700000000000-notes.txt" = Some Sample.notesBlob
  /\ header_safe "1700000000000-notes.txt" = true
  /\ header_safe (typeOf Sample.notesBlob) = true
  /\ statusCode (fst (Server.serve (Server.downloadRoute "1700000000000-notes.txt")
                                   Sample.failingThird)) = 500%N
  /\ headers (fst (Server.serve (Server.downloadRoute "1700000000000-notes.txt")
                                Sample.failingThird)) !! "Content-Disposition"
     = Some ("attachment; filename=" +:+ Server.dquote +:+ "1700000000000-notes.txt"
             +:+ Server.dquote).
Proof.
  split; [reflexivity|]. split; [reflexivity|]. split; [reflexivity|].
  split; [reflexivity|].
  destruct (failed_download_keeps_attachment_header "1700000000000-notes.txt"
              Sample.notesBlob Sample.failingThird "socket hang up" [] eq_refl eq_refl
              eq_refl eq_refl)
    as (Hstatus & _ & Hheader & _).
  split; [exact Hstatus | exact Hheader].
Defined.

Lemma error_responses_share_shape_witness :
  statusCode (fst (Server.serve (Server.listRoute Sample.url) Sample.failing)) <> 200%N
  /\ errorShaped (fst (Server.serve (Server.listRoute Sample.url) Sample.failing)).
Proof.
  assert (statusCode (fst (Server.serve (Server.listRoute Sample.url) Sample.failing))
          <> 200%N) as Hne by (vm_compute; discriminate).
  split; [exact Hne|].
  destruct (error_responses_share_shape Sample.url "1700000000000-notes.txt" Sample.failing)
    as (Hlist & _).
  exact (Hlist Hne).
Defined.

Lemma distinct_uploads_do_not_collide_witness :
  faults Sample.emptyWorld = [] /\ Spec.accepted Sample.notes /\ Spec.accepted Sample.report
  /\ Multer.part_filename Sample.notes <> Multer.part_filename Sample.report
  /\ size (blobs (snd (Server.serve (Server.postUpload 1700000000000 (Some Sample.report))
                         (snd (Server.serve (Server.postUpload 1700000000000
                                               (Some Sample.notes)) Sample.emptyWorld))))) = 2%nat
  /\ blobs (snd (Server.serve (Server.postUpload 1700000000000 (Some Sample.report))
                   (snd (Server.serve (Server.postUpload 1700000000000
                                         (Some Sample.notes)) Sample.emptyWorld))))
     !! Spec.keyOf 1700000000000 "notes.txt"
     = Some (Spec.blobOf Sample.notes 1700000000123).
Proof.
  assert (Multer.part_filename Sample.notes <> Multer.part_filename Sample.report) as Hne
    by discriminate.
  split; [reflexivity|]. split; [exact notes_accepted|]. split; [exact report_accepted|].
  split; [exact Hne|]. split; [vm_compute; reflexivity|].
  destruct (distinct_uploads_do_not_collide 1700000000000 1700000000000 Sample.notes
              Sample.report Sample.emptyWorld eq_refl notes_accepted report_accepted
              (or_intror Hne)) as (_ & Hfirst & _).
  exact Hfirst.
Defined.

Lemma listed_names_are_the_stored_keys_witness :
  faults Sample.oneBlob = []
  /\ exists files,
       fst (Server.serve (Server.listRoute Sample.url) Sample.oneBlob) = listed files
       /\ length files = 1%nat.
Proof.
  split; [reflexivity|].
  destruct (listed_names_are_the_stored_keys Sample.url Sample.oneBlob eq_refl)
    as (files & Hres & Hlen & _).
  exists files. split; [exact Hres|]. rewrite Hlen. vm_compute. reflexivity.
Defined.

Lemma deleted_file_disappears_witness :
  faults Sample.oneBlob = []
  /\ blobs Sample.oneBlob !! "1700000000000-notes.txt" = Some Sample.notesBlob
  /\ fst (Server.serve (Server.downloadRoute "1700000000000-notes.txt")
            (snd (Server.serve (Server.deleteRoute "1700000000000-notes.txt") Sample.oneBlob)))
     = notFound.
Proof.
  split; [reflexivity|]. split; [reflexivity|].
  destruct (deleted_file_disappears Sample.url "1700000000000-notes.txt" Sample.notesBlob
              Sample.oneBlob eq_refl eq_refl) as (files & _ & _ & _ & Hdl).
  exact Hdl.
Defined.



Lemma client_check_is_weaker_than_server_witness :
  Js.contains "/" "photo.JPG" = false
  /\ Multer.fileFilter "photo.JPG" = (None, true)
  /\ (5 <= Multer.fileSize)%N
  /\ Client.uploadFile "photo.JPG" 5 = Client.Posted.
Proof.
  assert (5 <= Multer.fileSize)%N as Hsize by (vm_compute; discriminate).
  split; [reflexivity|]. split; [reflexivity|]. split; [exact Hsize|].
  destruct (client_check_is_weaker_than_server "photo.JPG" 5 eq_refl) as (Hposted & _).
  exact (Hposted eq_refl Hsize).
Defined.

Lemma truncateFileName_keeps_extension_witness :
  Js.contains "." "pdf" = false
  /\ 25 < Js.strlen ("a-very-long-file-name-for-a-report" +:+ String "." "pdf")
  /\ Js.strlen (Client.truncateFileName
                  ("a-very-long-file-name-for-a-report" +:+ String "." "pdf") 25)
     = Z.max 25 (Js.strlen "pdf" + 4).
Proof.
  assert (25 < Js.strlen ("a-very-long-file-name-for-a-report" +:+ String "." "pdf"))
    as Hlong by reflexivity.
  split; [reflexivity|]. split; [exact Hlong|].
  destruct (truncateFileName_keeps_extension "a-very-long-file-name-for-a-report" "pdf" 25
              eq_refl Hlong) as (_ & Hlen & _).
  exact Hlen.
Defined.

Lemma truncateFileName_grows_dotless_names_witness :
  Js.contains "." "averylongfilenamewithoutanydotatall" = false
  /\ 25 < Js.strlen "averylongfilenamewithoutanydotatall"
  /\ Client.truncateFileName "averylongfilenamewithoutanydotatall" 25
     = "...." +:+ "averylongfilenamewithoutanydotatall".
Proof.
  assert (25 < Js.strlen "averylongfilenamewithoutanydotatall") as Hlong by reflexivity.
  split; [reflexivity|]. split; [exact Hlong|].
  destruct (truncateFileName_grows_dotless_names "averylongfilenamewithoutanydotatall" 25
              eq_refl Hlong) as (Hres & _).
  exact Hres.
Defined.

Lemma refused_upload_never_reaches_backend_witness :
  ~ Spec.accepted {| Multer.part_field := "file"; Multer.part_filename := "malware.exe";
                     Multer.part_type := "application/octet-stream";
                     Multer.part_data := [x4d; x5a] |}
  /\ snd (Server.serve
            (Server.postUpload 1700000000000
               (Some {| Multer.part_field := "file"; Multer.part_filename := "malware.exe";
                        Multer.part_type := "application/octet-stream";
                        Multer.part_data := [x4d; x5a] |})) Sample.failing)
     = Sample.failing.
Proof.
  split; [exact malware_not_accepted|].
  destruct (refused_upload_never_reaches_backend 1700000000000 _ Sample.failing
              malware_not_accepted) as (Hworld & _).
  exact Hworld.
Defined.

(** The content type of a spreadsheet in the office-document format gets
    the word-processor icon. *)
Example xlsx_gets_word_icon :
  Client.getFileIcon
    (Some "application/vnd.openxmlformats-officedocument.spreadsheetml.sheet")
  = "fa-file-word".
Proof. reflexivity. Qed.
